(** * build_presentation.py: the image resolver and the deck assembly

    A shallow embedding of [src/presentation/build_presentation.py].
    Python strings are Rocq strings holding the UTF-8 bytes of the text;
    the network, the disk and the final save are oracles of an environment,
    the mutable objects of the script ([prs], [refs], standard output, the
    files on disk) are fields of an explicit state. The presentation
    library builds the deck in memory; of its calls, [add_picture] raises
    on a file it cannot read as an image and the assignment of a text
    raises on [None]. Record names are ASCII text, as all shipped names
    are. The module-level [os.makedirs(IMAGES_DIR, exist_ok=True)] runs
    before [main] and is not part of the model. *)

From Stdlib Require Import QArith Ascii.
From stdpp Require Import gmap strings list.

Local Open Scope string_scope.
Local Open Scope Z_scope.
Local Open Scope list_scope.
Local Set Warnings "-register-all".

(** ** Python strings *)

Module PyStr.

Definition is_upper (c : ascii) : bool :=
  let n := nat_of_ascii c in (65 <=? n)%nat && (n <=? 90)%nat.

(** [str.lower] on one ASCII character: the letters A to Z become a to z,
    every other character is kept. *)
Definition lower_char (c : ascii) : ascii :=
  if is_upper c then ascii_of_nat (nat_of_ascii c + 32) else c.

Fixpoint map (f : ascii -> ascii) (s : string) : string :=
  match s with
  | EmptyString => EmptyString
  | String c s' => String (f c) (map f s')
  end.

Fixpoint all (p : ascii -> bool) (s : string) : bool :=
  match s with
  | EmptyString => true
  | String c s' => p c && all p s'
  end.

Definition is_ascii (c : ascii) : bool := (nat_of_ascii c <? 128)%nat.

(** [s.lower()] for a string of ASCII characters, the only ones on which
    it is taken: outside ASCII, [str.lower] follows the Unicode tables. *)
Definition lower (s : string) (_ : all is_ascii s = true) : string :=
  map lower_char s.

(** [s.replace(a, b)] for one-character [a] and [b]. *)
Definition replace (a b : ascii) (s : string) : string :=
  map (fun c => if Ascii.eqb c a then b else c) s.

(** [sub in s] on strings: [sub] occurs in [s]. *)
Fixpoint contains (sub s : string) : bool :=
  String.prefix sub s ||
  match s with
  | EmptyString => false
  | String _ s' => contains sub s'
  end.

(** [s.split(sep)] for a one-character [sep]: the pieces between the
    separators, one more than there are separators. *)
Fixpoint split (sep : ascii) (s : string) : list string :=
  match s with
  | EmptyString => [ EmptyString ]
  | String c s' =>
      if Ascii.eqb c sep then EmptyString :: split sep s'
      else
        match split sep s' with
        | piece :: pieces => String c piece :: pieces
        | [] => [ String c EmptyString ]
        end
  end.

(** Truth value of a string: only the empty string is false. *)
Definition truthy (s : string) : bool :=
  match s with EmptyString => false | _ => true end.

Definition hex_digit (n : nat) : ascii :=
  if (n <? 10)%nat then ascii_of_nat (48 + n) else ascii_of_nat (55 + n).

(** The characters [urllib.parse.quote] never escapes: letters, digits
    and [_.-~], together with its default [safe="/"]. *)
Definition quote_safe (c : ascii) : bool :=
  let n := nat_of_ascii c in
  ((65 <=? n) && (n <=? 90) || (97 <=? n) && (n <=? 122) ||
   (48 <=? n) && (n <=? 57))%nat ||
  Ascii.eqb c "_" || Ascii.eqb c "." || Ascii.eqb c "-" ||
  Ascii.eqb c "~" || Ascii.eqb c "/".

(** [urllib.parse.quote(s)]: every byte of the UTF-8 encoding that is not
    safe becomes [%XX] with upper-case hexadecimal digits. *)
Fixpoint quote (s : string) : string :=
  match s with
  | EmptyString => EmptyString
  | String c s' =>
      if quote_safe c then String c (quote s')
      else
        let n := nat_of_ascii c in
        String "%" (String (hex_digit (n / 16)) (String (hex_digit (n mod 16)) (quote s')))
  end.

End PyStr.

(** [os.path.join(a, b)] on POSIX: an absolute [b] replaces [a], otherwise
    the two are joined by one slash unless [a] is empty or ends in one. *)
Definition ends_with_slash (a : string) : bool :=
  match String.get (String.length a - 1) a with
  | Some c => Ascii.eqb c "/"
  | None => false
  end.

Definition os_path_join (a b : string) : string :=
  if String.prefix "/" b then b
  else if negb (PyStr.truthy a) || ends_with_slash a then a +:+ b
  else a +:+ "/" +:+ b.

(** ** The static dataset *)

Definition OUTPUT_PPTX : string :=
  "/workspace/presentation/Craniofacial_Syndromes_Anesthesia.pptx".
Definition IMAGES_DIR : string := "/workspace/presentation/images".

(** One entry of the [syndromes] list. The name is ASCII text.
    [image_url] is read with [item.get("image_url")], which gives [None]
    for a missing key as for a key that holds [None]. [image_caption] is
    read with [item.get("image_caption", "")], which tells the two apart:
    [None] here is the missing key, [Some None] the key that holds [None]
    and [Some (Some s)] the key that holds the string [s]. *)
Record syndrome := {
  name : string;
  name_ascii : PyStr.all PyStr.is_ascii name = true;
  description : string;
  anesthesia : list string;
  image_url : option string;
  image_caption : option (option string)
}.

Definition syndromes : list syndrome := [
  {| name := "Apert Syndrome";
     name_ascii := eq_refl;
     description := "Craniosynostosis with turribrachycephaly, midface hypoplasia, syndactyly; possible cleft palate.";
     anesthesia := [
       "Anticipate difficult mask/intubation (midface hypoplasia, choanal atresia)";
       "Screen for CHD; manage ICP if present";
       "Eye protection for proptosis; careful positioning" ];
     image_url := None;
     image_caption := Some (Some "Apert syndrome: syndactyly (Wikimedia Commons)") |};
  {| name := "Crouzon Syndrome";
     name_ascii := eq_refl;
     description := "Craniosynostosis, midface hypoplasia, beaked nose, proptosis; no limb anomalies.";
     anesthesia := [
       "Potential difficult airway; consider fiberoptic";
       "Monitor for increased ICP";
       "Eye protection due to proptosis" ];
     image_url := None;
     image_caption := Some (Some "Crouzon syndrome (Wikimedia Commons)") |};
  {| name := "Pfeiffer Syndrome";
     name_ascii := eq_refl;
     description := "Craniosynostosis with midface hypoplasia; broad, medially deviated thumbs/toes.";
     anesthesia := [
       "Airway obstruction risk; prepare for difficult intubation";
       "Assess for CHD and increased ICP";
       "Careful positioning and eye protection" ];
     image_url := None;
     image_caption := Some (Some "Pfeiffer syndrome (Wikimedia Commons)") |};
  {| name := "Saethre-Chotzen Syndrome";
     name_ascii := eq_refl;
     description := "Craniosynostosis, facial asymmetry, ptosis, mild syndactyly.";
     anesthesia := [
       "Airway usually manageable; assess individually";
       "Monitor for ICP and hearing issues";
       "IV access may be challenging with limb anomalies" ];
     image_url := None;
     image_caption := Some (Some "Saethre-Chotzen syndrome (Wikimedia Commons)") |};
  {| name := "Carpenter Syndrome";
     name_ascii := eq_refl;
     description := "Craniosynostosis, syndactyly/polydactyly, obesity; developmental delay.";
     anesthesia := [
       "Difficult ventilation/intubation (midface hypoplasia, obesity)";
       "Cardiac defects common; evaluate preop";
       "Positioning challenges due to habitus and limbs" ];
     image_url := None;
     image_caption := Some (Some "Carpenter syndrome (Wikimedia Commons)") |};
  {| name := "Muenke Syndrome";
     name_ascii := eq_refl;
     description := "Coronal craniosynostosis, brachycephaly, midface hypoplasia, hearing loss.";
     anesthesia := [
       "Prepare for potential difficult airway";
       "Assess hearing/communication needs";
       "Monitor for signs of ICP" ];
     image_url := None;
     image_caption := Some (Some "Muenke syndrome (Wikimedia Commons)") |};
  {| name := "Treacher Collins Syndrome";
     name_ascii := eq_refl;
     description := "Mandibulofacial dysostosis: mandibular/malar hypoplasia, downward palpebral fissures, ear anomalies; cleft palate common.";
     anesthesia := [
       "Very difficult airway; fiberoptic or video techniques";
       "Consider postoperative airway obstruction; extended monitoring";
       "Address hearing impairment communication" ];
     image_url := None;
     image_caption := Some (Some "Treacher Collins syndrome (Wikimedia Commons)") |};
  {| name := "Pierre Robin Sequence";
     name_ascii := eq_refl;
     description := "Triad: micrognathia, glossoptosis, cleft palate; significant airway obstruction.";
     anesthesia := [
       "Maintain spontaneous ventilation until airway secured";
       "Prepare for difficult intubation; alternative airways";
       "Postop monitoring for obstruction" ];
     image_url := None;
     image_caption := Some (Some "Pierre Robin sequence (Wikimedia Commons)") |};
  {| name := "Hemifacial Microsomia / Goldenhar";
     name_ascii := eq_refl;
     description := "Unilateral facial underdevelopment; ear anomalies; vertebral +/- cardiac defects.";
     anesthesia := [
       "Difficult intubation due to asymmetry/mandibular hypoplasia";
       "Evaluate cardiac/vertebral anomalies";
       "Careful positioning and padding" ];
     image_url := None;
     image_caption := Some (Some "Hemifacial microsomia (Wikimedia Commons)") |};
  {| name := "Freeman-Sheldon Syndrome";
     name_ascii := eq_refl;
     description := "Whistling face: microstomia, pursed lips; limb contractures; scoliosis.";
     anesthesia := [
       "Extremely difficult airway; microstomia";
       "Positioning challenges; consider MH risk per institutional protocol";
       "Plan postoperative respiratory support" ];
     image_url := None;
     image_caption := Some (Some "Freeman-Sheldon syndrome (Wikimedia Commons)") |}
].

(** The [fallback_titles] dict of [main]. *)
Definition fallback_titles : gmap string string :=
  list_to_map [
    ("Apert Syndrome", "Apert syndrome");
    ("Crouzon Syndrome", "Crouzon syndrome");
    ("Pfeiffer Syndrome", "Pfeiffer syndrome");
    ("Saethre-Chotzen Syndrome", "Saethre–Chotzen syndrome");
    ("Carpenter Syndrome", "Carpenter syndrome");
    ("Muenke Syndrome", "Muenke syndrome");
    ("Treacher Collins Syndrome", "Treacher Collins syndrome");
    ("Pierre Robin Sequence", "Pierre Robin sequence");
    ("Hemifacial Microsomia / Goldenhar", "Hemifacial microsomia");
    ("Freeman-Sheldon Syndrome", "Freeman–Sheldon syndrome")
  ].

(** [item["name"].lower().replace(" ", "_").replace("/", "-") + ".jpg"] *)
Definition filename (item : syndrome) : string :=
  PyStr.replace "/" "-"
    (PyStr.replace " " "_" (PyStr.lower (name item) (name_ascii item))) +:+ ".jpg".

(** [os.path.join(IMAGES_DIR, filename)] *)
Definition dest_path (item : syndrome) : string :=
  os_path_join IMAGES_DIR (filename item).

(** ** Python values

    What [r.json()] can return, and therefore what may reach [thumb_url]
    and [img_url_used]. A dict is its list of items in iteration order; a
    float is kept only up to its truth value, the one thing the script
    observes of a number. *)
Inductive value :=
| VNone
| VBool (b : bool)
| VInt (n : Z)
| VFloat (nonzero : bool)
| VStr (s : string)
| VList (l : list value)
| VDict (items : list (string * value)).

Inductive exn :=
| RequestException (msg : string)
| HTTPError (status_code : Z)
| JSONDecodeError (msg : string)
| AttributeError
| TypeError
| KeyError (key : string)
| OSError (msg : string)
| UnidentifiedImageError (msg : string).

Inductive result (A : Type) :=
| Ok (a : A)
| Raise (e : exn).
Arguments Ok {A} a.
Arguments Raise {A} e.

Module Py.

(** [bool(v)] *)
Definition truthy (v : value) : bool :=
  match v with
  | VNone => false
  | VBool b => b
  | VInt n => negb (n =? 0)
  | VFloat nonzero => nonzero
  | VStr s => PyStr.truthy s
  | VList l => match l with [] => false | _ => true end
  | VDict items => match items with [] => false | _ => true end
  end.

(** [a or b] *)
Definition or (a b : value) : value := if truthy a then a else b.

Fixpoint lookup (key : string) (items : list (string * value)) : option value :=
  match items with
  | [] => None
  | (k, v) :: rest => if String.eqb k key then Some v else lookup key rest
  end.

(** [d.get(key, default)]: only a dict has the method. *)
Definition get (d : value) (key : string) (default : value) : result value :=
  match d with
  | VDict items => Ok (match lookup key items with Some v => v | None => default end)
  | _ => Raise AttributeError
  end.

(** [d.items()] *)
Definition items (d : value) : result (list (string * value)) :=
  match d with
  | VDict items => Ok items
  | _ => Raise AttributeError
  end.

Definition is_str (key : string) (v : value) : bool :=
  match v with VStr s => String.eqb s key | _ => false end.

(** [key in c] for a string [key]: a key of a dict, an element of a list,
    a substring of a string; the other values are not containers. *)
Definition contains (key : string) (c : value) : result bool :=
  match c with
  | VDict items => Ok (match lookup key items with Some _ => true | None => false end)
  | VList l => Ok (existsb (is_str key) l)
  | VStr s => Ok (PyStr.contains key s)
  | _ => Raise TypeError
  end.

(** [c[key]] for a string [key]. *)
Definition getitem (c : value) (key : string) : result value :=
  match c with
  | VDict items =>
      match lookup key items with Some v => Ok v | None => Raise (KeyError key) end
  | _ => Raise TypeError
  end.

(** [v.replace(a, b)]: only a string has the method. *)
Definition replace (v : value) (a b : ascii) : result string :=
  match v with
  | VStr s => Ok (PyStr.replace a b s)
  | _ => Raise AttributeError
  end.

(** Truth value of a [str | None]. *)
Definition truthy_opt (p : option string) : bool :=
  match p with Some s => PyStr.truthy s | None => false end.

End Py.

(** ** The presentation library

    The deck is the list of its slides. A text frame is the list of its
    paragraphs: a new text box or placeholder starts with one empty
    paragraph (the script reads [tf.paragraphs[0]] of a new text box), and
    [tf.clear()] removes all paragraphs except one empty one. A text
    assigned to a text frame becomes one paragraph per line; a text
    assigned to a paragraph or to the title is stored as assigned. *)
Inductive Length :=
| Inches (q : Q)
| Pt (n : Z)
| Plus (a b : Length).

Record paragraph := {
  text : string;
  level : nat;
  font_size : option Length
}.

Definition empty_paragraph : paragraph :=
  {| text := ""; level := 0%nat; font_size := None |}.

Inductive shape :=
| Textbox (left top width height : Length) (word_wrap : bool) (paragraphs : list paragraph)
| Picture (image_file : string) (left top width : Length).

(** [placeholder_1] is the text frame of [slide.placeholders[1]]: layouts
    0 (title slide) and 1 (title and content) have one, layout 5 (title
    only) has none. *)
Record slide := {
  slide_layout : nat;
  title : string;
  placeholder_1 : option (list paragraph);
  shapes : list shape
}.

Definition Presentation := list slide.

(** ** The environment and the state of a run *)

Record request := {
  url : value;
  params : list (string * value);
  headers : list (string * string);
  timeout : Z
}.

Record response := {
  status_code : Z;
  content : string;
  json : result value
}.

Inductive write_outcome :=
| Written
| OpenFails (e : exn)
| WriteFails (e : exn).

Inductive save_outcome :=
| SaveOk
| SaveFails (e : exn) (left : option string).

Inductive line :=
| Failed_to_download (url : value) (e : exn)
| Wikipedia_API_failed (page_title : string) (e : exn)
| Saved (path : string).

(** The outside world. [requests_get n rq] is what the network answers to
    request [rq] when it is the [n]-th interaction of the run and
    [open_write] what the disk does with a write. [image_error bytes] is
    what [add_picture] raises on a file with these bytes ([None] when it
    reads them as an image) and [none_text_error] what the library raises
    when [None] is assigned as a text. [save] is what [prs.save] does
    ([left] being the bytes a failed save leaves at the path, if any),
    [package] the bytes of the file of a deck, and [str_of] how Python
    prints a value that is not a string. *)
Record Env := {
  requests_get : nat -> request -> result response;
  open_write : nat -> string -> write_outcome;
  image_error : string -> option exn;
  none_text_error : exn;
  save : Presentation -> string -> save_outcome;
  package : Presentation -> string;
  str_of : value -> string
}.

(** [disk] holds the bytes of every file, by path. *)
Record State := {
  clock : nat;
  sent : list request;
  disk : gmap string string;
  stdout : list line;
  prs : Presentation;
  refs : list string;
  saved : option Presentation
}.

(** The paths at which a file exists. *)
Definition files (st : State) : gset string := dom (disk st).

(** ** Computations: environment, state and exceptions *)

Definition M (A : Type) : Type := Env -> State -> result A * State.

Definition ret {A} (a : A) : M A := fun _ st => (Ok a, st).

Definition bind {A B} (c : M A) (k : A -> M B) : M B :=
  fun env st =>
    match c env st with
    | (Ok a, st') => k a env st'
    | (Raise e, st') => (Raise e, st')
    end.

Definition raise {A} (e : exn) : M A := fun _ st => (Raise e, st).

(** [try: body / except Exception as e: handler(e)] *)
Definition try_except {A} (body : M A) (handler : exn -> M A) : M A :=
  fun env st =>
    match body env st with
    | (Ok a, st') => (Ok a, st')
    | (Raise e, st') => handler e env st'
    end.

(** A pure step that may raise. *)
Definition lift {A} (r : result A) : M A := fun _ st => (r, st).

Notation "x <- c1 ;; c2" := (bind c1 (fun x => c2))
  (at level 100, c1 at next level, right associativity).
Notation "c1 ;;; c2" := (bind c1 (fun _ => c2))
  (at level 100, right associativity).

Definition get_state : M State := fun _ st => (Ok st, st).
Definition modify (f : State -> State) : M unit := fun _ st => (Ok tt, f st).

Definition tick (st : State) : State :=
  {| clock := S (clock st); sent := sent st; disk := disk st;
     stdout := stdout st; prs := prs st; refs := refs st; saved := saved st |}.

Definition record_request (rq : request) (st : State) : State :=
  {| clock := S (clock st); sent := sent st ++ [rq]; disk := disk st;
     stdout := stdout st; prs := prs st; refs := refs st; saved := saved st |}.

Definition create_file (path : string) (data : string) (st : State) : State :=
  {| clock := clock st; sent := sent st; disk := <[ path := data ]> (disk st);
     stdout := stdout st; prs := prs st; refs := refs st; saved := saved st |}.

Definition set_prs (d : Presentation) (st : State) : State :=
  {| clock := clock st; sent := sent st; disk := disk st;
     stdout := stdout st; prs := d; refs := refs st; saved := saved st |}.

Definition set_refs (r : list string) (st : State) : State :=
  {| clock := clock st; sent := sent st; disk := disk st;
     stdout := stdout st; prs := prs st; refs := r; saved := saved st |}.

Definition set_saved (d : Presentation) (st : State) : State :=
  {| clock := clock st; sent := sent st; disk := disk st;
     stdout := stdout st; prs := prs st; refs := refs st; saved := Some d |}.

Definition add_line (l : line) (st : State) : State :=
  {| clock := clock st; sent := sent st; disk := disk st;
     stdout := stdout st ++ [l]; prs := prs st; refs := refs st; saved := saved st |}.

(** [print(...)] *)
Definition print (l : line) : M unit := modify (add_line l).

(** [requests.get(url, params=..., headers=..., timeout=...)] *)
Definition requests_get_ (rq : request) : M response :=
  fun env st => (requests_get env (clock st) rq, record_request rq st).

(** [resp.raise_for_status()]: raises for a 4xx or 5xx status. *)
Definition raise_for_status (resp : response) : M unit :=
  if (400 <=? status_code resp) && (status_code resp <? 600)
  then raise (HTTPError (status_code resp))
  else ret tt.

(** [with open(dest_path, "wb") as f: f.write(data)]. Opening creates or
    truncates the file, so it exists afterwards unless opening failed. What
    a failed write leaves in it is not modelled, the file is kept as
    opening made it: the script gets no path from a failed write and does
    not read the file. *)
Definition write_file (dest_path : string) (data : string) : M unit :=
  fun env st =>
    match open_write env (clock st) dest_path with
    | Written => (Ok tt, create_file dest_path data (tick st))
    | OpenFails e => (Raise e, tick st)
    | WriteFails e => (Raise e, create_file dest_path "" (tick st))
    end.

(** [os.path.exists(path)] *)
Definition os_path_exists (path : string) : M bool :=
  fun _ st => (Ok (bool_decide (path ∈ files st)), st).

(** [str(v)] inside an f-string. *)
Definition str (v : value) : M string :=
  fun env st => (Ok (match v with VStr s => s | _ => str_of env v end), st).

Definition USER_AGENT : string :=
  "Mozilla/5.0 (X11; Linux x86_64) AppleWebKit/537.36 " +:+
  "(KHTML, like Gecko) Chrome/123.0 Safari/537.36".

(** ** The resolver functions *)

Definition download_image (url : value) (dest_path : string) : M (option string) :=
  try_except
    (let headers := [
       ("User-Agent", USER_AGENT);
       ("Referer", "https://commons.wikimedia.org/");
       ("Accept", "image/avif,image/webp,image/apng,image/*,*/*;q=0.8") ] in
     resp <- requests_get_ {| url := url; params := []; headers := headers; timeout := 30 |} ;;
     raise_for_status resp ;;;
     write_file dest_path (content resp) ;;;
     ret (Some dest_path))
    (fun e =>
       print (Failed_to_download url e) ;;;
       ret None).

Definition WIKI_ENDPOINT : string := "https://en.wikipedia.org/w/api.php".
Definition WIKI_PAGE_PREFIX : string := "https://en.wikipedia.org/wiki/".

(** The loop [for page_id, page in pages.items()] of
    [fetch_wikipedia_thumbnail], up to its [return] or to the end of the
    items. *)
Fixpoint first_thumbnail (page_title : string) (pages : list (string * value))
  : result (value * value) :=
  match pages with
  | [] => Ok (VNone, VNone)
  | (page_id, page) :: rest =>
      match Py.contains "thumbnail" page with
      | Raise e => Raise e
      | Ok false => first_thumbnail page_title rest
      | Ok true =>
          match Py.getitem page "thumbnail" with
          | Raise e => Raise e
          | Ok th =>
              match Py.getitem th "source" with
              | Raise e => Raise e
              | Ok thumb =>
                  match Py.get page "title" (VStr page_title) with
                  | Raise e => Raise e
                  | Ok title =>
                      match Py.replace title " " "_" with
                      | Raise e => Raise e
                      | Ok t =>
                          let page_url := WIKI_PAGE_PREFIX +:+ PyStr.quote t in
                          Ok (thumb, VStr page_url)
                      end
                  end
              end
          end
      end
  end.

(** Returns [(thumb_url, page_url)], or [(None, None)]. *)
Definition fetch_wikipedia_thumbnail (page_title : string) : M (value * value) :=
  try_except
    (let endpoint := WIKI_ENDPOINT in
     let params := [
       ("action", VStr "query");
       ("format", VStr "json");
       ("redirects", VInt 1);
       ("titles", VStr page_title);
       ("prop", VStr "pageimages");
       ("pithumbsize", VInt 800) ] in
     let headers := [ ("User-Agent", USER_AGENT) ] in
     r <- requests_get_ {| url := VStr endpoint; params := params;
                           headers := headers; timeout := 30 |} ;;
     raise_for_status r ;;;
     data <- lift (json r) ;;
     query <- lift (Py.get data "query" (VDict [])) ;;
     pages <- lift (Py.get query "pages" (VDict [])) ;;
     items <- lift (Py.items pages) ;;
     lift (first_thumbnail page_title items))
    (fun e =>
       print (Wikipedia_API_failed page_title e) ;;;
       ret (VNone, VNone)).

(** ** The slide builders *)

Definition append_slide (s : slide) : M unit :=
  modify (fun st => set_prs (prs st ++ [s]) st).

Fixpoint update_last {A} (f : A -> A) (l : list A) : list A :=
  match l with
  | [] => []
  | [x] => [f x]
  | x :: rest => x :: update_last f rest
  end.

(** A builder fills in the slide it has just added, the last of the deck. *)
Definition update_slide (f : slide -> slide) : M unit :=
  modify (fun st => set_prs (update_last f (prs st)) st).

(** [slide.shapes.add_textbox(...)] and [slide.shapes.add_picture(...)],
    once the shape is there. *)
Definition add_shape (sh : shape) : M unit :=
  update_slide (fun s =>
    {| slide_layout := slide_layout s; title := title s;
       placeholder_1 := placeholder_1 s; shapes := shapes s ++ [sh] |}).

(** A change of the shape added last to the slide. *)
Definition update_shape (f : shape -> shape) : M unit :=
  update_slide (fun s =>
    {| slide_layout := slide_layout s; title := title s;
       placeholder_1 := placeholder_1 s; shapes := update_last f (shapes s) |}).

Definition set_paragraphs (ps : list paragraph) (sh : shape) : shape :=
  match sh with
  | Textbox x y w h wrap _ => Textbox x y w h wrap ps
  | Picture _ _ _ _ => sh
  end.

Definition map_paragraphs (f : list paragraph -> list paragraph) (sh : shape) : shape :=
  match sh with
  | Textbox x y w h wrap ps => Textbox x y w h wrap (f ps)
  | Picture _ _ _ _ => sh
  end.

(** The paragraphs of a text frame to which [text] is assigned: one per
    line of the text. *)
Definition text_paragraphs (text : string) : list paragraph :=
  List.map (fun line => {| text := line; level := 0; font_size := None |})
           (PyStr.split "010" text).

(** [tf.text = text] on the text box added last. The library empties the
    frame, then splits the text: [None] has no lines and raises. *)
Definition set_text (text : option string) : M unit :=
  match text with
  | Some s => update_shape (set_paragraphs (text_paragraphs s))
  | None =>
      update_shape (set_paragraphs []) ;;;
      (fun env st => (Raise (none_text_error env), st))
  end.

(** [tf.paragraphs[0].font.size = size] on the text box added last; an
    assigned text always leaves a first paragraph. *)
Definition set_first_font_size (size : Length) (ps : list paragraph) : list paragraph :=
  match ps with
  | p :: rest =>
      {| text := text p; level := level p; font_size := Some size |} :: rest
  | [] => []
  end.

(** [slide.shapes.add_picture(image_file, left, top, width=width)]: the
    library opens the file and reads it as an image. *)
Definition add_picture (image_file : string) (left top width : Length) : M unit :=
  fun env st =>
    match disk st !! image_file with
    | None => (Raise (OSError "No such file or directory"), st)
    | Some bytes =>
        match image_error env bytes with
        | Some e => (Raise e, st)
        | None => add_shape (Picture image_file left top width) env st
        end
    end.

Definition add_title_slide (title subtitle : string) : M unit :=
  append_slide
    {| slide_layout := 0;
       title := title;
       placeholder_1 := Some (text_paragraphs subtitle);
       shapes := [] |}.

Definition add_syndrome_slide (item : syndrome) (image_path : option string) : M unit :=
  append_slide
    {| slide_layout := 5; title := name item; placeholder_1 := None; shapes := [] |} ;;;
  let left := Inches 0.5 in
  let top := Inches 1.2 in
  let width := Inches 5.5 in
  let p := {| text := description item; level := 0; font_size := Some (Pt 18) |} in
  let bullets :=
    List.map (fun point =>
                {| text := "- " +:+ point; level := 1; font_size := Some (Pt 18) |})
             (anesthesia item) in
  add_shape (Textbox left top width (Inches 4.5) true (p :: bullets)) ;;;
  match image_path with
  | Some path =>
      if PyStr.truthy path then
        present <- os_path_exists path ;;
        if present then
          let pic_left := Inches 6.2 in
          let pic_top := Inches 1.2 in
          let pic_width := Inches 3.0 in
          add_picture path pic_left pic_top pic_width ;;;
          add_shape (Textbox pic_left (Plus pic_top (Inches 3.05)) pic_width (Inches 1.0)
                       false [empty_paragraph]) ;;;
          set_text (match image_caption item with
                    | Some caption => caption
                    | None => Some ""
                    end) ;;;
          update_shape (map_paragraphs (set_first_font_size (Pt 10)))
        else ret tt
      else ret tt
  | None => ret tt
  end.

(** [tf.clear()] leaves the placeholder with one empty paragraph, and every
    [tf.add_paragraph()] appends a new one after it. *)
Definition add_references_slide (refs : list string) : M unit :=
  let tf := [empty_paragraph] in
  let tf :=
    fold_left (fun tf ref =>
                 tf ++ [ {| text := ref; level := 0; font_size := Some (Pt 12) |} ])
              refs tf in
  append_slide
    {| slide_layout := 1;
       title := "References";
       placeholder_1 := Some tf;
       shapes := [] |}.

(** ** The orchestrator *)

(** [prs.save(path)]: the file of the deck is written at [path]. *)
Definition prs_save (path : string) : M unit :=
  fun env st =>
    match save env (prs st) path with
    | SaveOk => (Ok tt, set_saved (prs st) (create_file path (package env (prs st)) st))
    | SaveFails e None => (Raise e, st)
    | SaveFails e (Some bytes) => (Raise e, create_file path bytes st)
    end.

Fixpoint for_each {A} (body : A -> M unit) (l : list A) : M unit :=
  match l with
  | [] => ret tt
  | x :: rest => body x ;;; for_each body rest
  end.

(** The title sent to the lookup service:
    [fallback_titles.get(item["name"], item["name"])]. *)
Definition lookup_title (item : syndrome) : string :=
  default (name item) (fallback_titles !! name item).

(** Lines 264 to 269 of [main]: the direct download. The result is the
    pair [(img_path, img_url_used)]. *)
Definition direct_step (item : syndrome) : M (option string * value) :=
  let img_path := None in
  let img_url_used := VNone in
  match image_url item with
  | Some u =>
      if PyStr.truthy u then
        img_path <- download_image (VStr u) (dest_path item) ;;
        let img_url_used := if Py.truthy_opt img_path then VStr u else VNone in
        ret (img_path, img_url_used)
      else ret (img_path, img_url_used)
  | None => ret (img_path, img_url_used)
  end.

(** Lines 271 to 276 of [main]: the lookup of a thumbnail, entered with the
    [(img_path, img_url_used)] the direct download left. *)
Definition fallback_step (item : syndrome) (direct : option string * value)
  : M (option string * value) :=
  let '(img_path, img_url_used) := direct in
  if negb (Py.truthy_opt img_path) then
    let title := lookup_title item in
    found <- fetch_wikipedia_thumbnail title ;;
    let '(thumb_url, page_url) := found in
    if Py.truthy thumb_url then
      img_path <- download_image thumb_url (dest_path item) ;;
      let img_url_used := Py.or page_url thumb_url in
      ret (img_path, img_url_used)
    else ret (img_path, img_url_used)
  else ret (img_path, img_url_used).

(** Lines 261 to 276 of [main]: the values of [img_path] and
    [img_url_used] once both resolution steps are over. *)
Definition resolve_image (item : syndrome) : M (option string * value) :=
  direct <- direct_step item ;;
  fallback_step item direct.

(** The body of [for item in syndromes]. *)
Definition loop_body (item : syndrome) : M unit :=
  resolved <- resolve_image item ;;
  let '(img_path, img_url_used) := resolved in
  (if Py.truthy_opt img_path && Py.truthy img_url_used then
     locator <- str img_url_used ;;
     modify (fun st =>
       set_refs (refs st ++ [ "Image: " +:+ name item +:+ " — " +:+ locator ]) st)
   else ret tt) ;;;
  add_syndrome_slide item img_path.

Definition GENERAL_REFERENCES : list string := [
  "General references: IntechOpen, Medscape, NCBI Bookshelf, ClinicalGate, Aneskey";
  "Always verify local protocols and latest guidelines"
].

(** [main], over an arbitrary list of records. *)
Definition main_on (syndromes : list syndrome) : M unit :=
  modify (set_prs []) ;;;
  add_title_slide "Pediatric Craniofacial Syndromes"
                  "Key types, features, and anesthesia considerations" ;;;
  modify (set_refs []) ;;;
  for_each loop_body syndromes ;;;
  modify (fun st => set_refs (refs st ++ GENERAL_REFERENCES) st) ;;;
  st <- get_state ;;
  add_references_slide (refs st) ;;;
  prs_save OUTPUT_PPTX ;;;
  print (Saved OUTPUT_PPTX).

Definition main : M unit := main_on syndromes.

(** ** Vocabulary of the statements *)

(** The request [download_image] sends for [url]. *)
Definition download_request (url : value) : request :=
  {| url := url;
     params := [];
     headers := [
       ("User-Agent", USER_AGENT);
       ("Referer", "https://commons.wikimedia.org/");
       ("Accept", "image/avif,image/webp,image/apng,image/*,*/*;q=0.8") ];
     timeout := 30 |}.

(** The request [fetch_wikipedia_thumbnail] sends for [page_title]. *)
Definition lookup_request (page_title : string) : request :=
  {| url := VStr WIKI_ENDPOINT;
     params := [
       ("action", VStr "query");
       ("format", VStr "json");
       ("redirects", VInt 1);
       ("titles", VStr page_title);
       ("prop", VStr "pageimages");
       ("pithumbsize", VInt 800) ];
     headers := [ ("User-Agent", USER_AGENT) ];
     timeout := 30 |}.

Definition bad_status (resp : response) : bool :=
  (400 <=? status_code resp) && (status_code resp <? 600).

(** The text of [img_url_used] inside the reference entry. *)
Definition locator_text (env : Env) (v : value) : string :=
  match v with VStr s => s | _ => str_of env v end.

(** [f"Image: {item['name']} — {img_url_used}"] *)
Definition ref_entry (item : syndrome) (locator : string) : string :=
  "Image: " +:+ name item +:+ " — " +:+ locator.

(** The page URL built from a page title. *)
Definition page_url_of (title : string) : string :=
  WIKI_PAGE_PREFIX +:+ PyStr.quote (PyStr.replace " " "_" title).

Definition title_slide : slide :=
  {| slide_layout := 0;
     title := "Pediatric Craniofacial Syndromes";
     placeholder_1 :=
       Some [ {| text := "Key types, features, and anesthesia considerations";
                 level := 0; font_size := None |} ];
     shapes := [] |}.

(** The text [cap_tf.text] is given: [item.get("image_caption", "")] when
    it is a string. *)
Definition caption_text (item : syndrome) : string :=
  match image_caption item with
  | Some (Some caption) => caption
  | _ => ""
  end.

Definition text_region (item : syndrome) : shape :=
  Textbox (Inches 0.5) (Inches 1.2) (Inches 5.5) (Inches 4.5) true
    ({| text := description item; level := 0; font_size := Some (Pt 18) |} ::
     List.map (fun point =>
                 {| text := "- " +:+ point; level := 1; font_size := Some (Pt 18) |})
              (anesthesia item)).

Definition image_region (path : string) : shape :=
  Picture path (Inches 6.2) (Inches 1.2) (Inches 3.0).

(** The caption: one paragraph per line of the text, the first one at 10
    points. *)
Definition caption_region (item : syndrome) : shape :=
  Textbox (Inches 6.2) (Plus (Inches 1.2) (Inches 3.05)) (Inches 3.0) (Inches 1.0) false
    (set_first_font_size (Pt 10) (text_paragraphs (caption_text item))).

(** The caption box as the assignment of [None] leaves it. *)
Definition emptied_caption_region : shape :=
  Textbox (Inches 6.2) (Plus (Inches 1.2) (Inches 3.05)) (Inches 3.0) (Inches 1.0) false [].

(** The slide of a record, with the picture at [picture] when there is one. *)
Definition syndrome_slide (item : syndrome) (picture : option string) : slide :=
  {| slide_layout := 5;
     title := name item;
     placeholder_1 := None;
     shapes :=
       text_region item ::
       match picture with
       | Some path => [ image_region path; caption_region item ]
       | None => []
       end |}.

Definition reference_paragraph (ref : string) : paragraph :=
  {| text := ref; level := 0; font_size := Some (Pt 12) |}.

Definition references_slide (refs : list string) : slide :=
  {| slide_layout := 1;
     title := "References";
     placeholder_1 := Some (empty_paragraph :: List.map reference_paragraph refs);
     shapes := [] |}.

(** The slide of a record as the failed assignment of a [None] caption
    leaves it. *)
Definition broken_caption_slide (item : syndrome) (path : string) : slide :=
  {| slide_layout := 5;
     title := name item;
     placeholder_1 := None;
     shapes := [ text_region item; image_region path; emptied_caption_region ] |}.

(** The picture [add_syndrome_slide] tries to show for [image_path] in
    state [st]: the path, when it is not empty and a file exists at it,
    with the bytes of the file. *)
Definition shown (image_path : option string) (st : State) : option (string * string) :=
  match image_path with
  | Some path =>
      if PyStr.truthy path
      then match disk st !! path with
           | Some bytes => Some (path, bytes)
           | None => None
           end
      else None
  | None => None
  end.

(** What [add_syndrome_slide] returns, and the slide it leaves in the deck,
    for a picture to show. *)
Definition slide_outcome (env : Env) (item : syndrome) (picture : option (string * string))
  : result unit * slide :=
  match picture with
  | None => (Ok tt, syndrome_slide item None)
  | Some (path, bytes) =>
      match image_error env bytes with
      | Some e => (Raise e, syndrome_slide item None)
      | None =>
          match image_caption item with
          | Some None => (Raise (none_text_error env), broken_caption_slide item path)
          | _ => (Ok tt, syndrome_slide item (Some path))
          end
      end
  end.

Definition has_picture (s : slide) : bool :=
  existsb (fun sh => match sh with Picture _ _ _ _ => true | _ => false end) (shapes s).

(** What [fetch_wikipedia_thumbnail] computes from the answer of the
    lookup service, before its [except] clause. *)
Definition lookup_answer (page_title : string) (answer : result response)
  : result (value * value) :=
  match answer with
  | Raise e => Raise e
  | Ok r =>
      if bad_status r then Raise (HTTPError (status_code r))
      else
        match json r with
        | Raise e => Raise e
        | Ok data =>
            match Py.get data "query" (VDict []) with
            | Raise e => Raise e
            | Ok query =>
                match Py.get query "pages" (VDict []) with
                | Raise e => Raise e
                | Ok pages =>
                    match Py.items pages with
                    | Raise e => Raise e
                    | Ok items => first_thumbnail page_title items
                    end
                end
            end
        end
  end.

(** What a step of the resolver may change: it sends requests, writes
    files and prints, and leaves the deck and the references alone. *)
Definition frame (st st' : State) : Prop :=
  prs st' = prs st /\ refs st' = refs st /\ saved st' = saved st /\
  (exists more, sent st' = sent st ++ more) /\
  files st ⊆ files st'.

(** The state in which [main] enters its loop: an empty deck with the
    title slide, and no reference. *)
Definition loop_start (st : State) : State :=
  set_refs [] (set_prs [title_slide] st).

(** The bytes a download made in state [st] puts on disk, when the request
    is answered with a good status and the write succeeds. *)
Definition download_ok (env : Env) (st : State) (url : value) (dest : string)
  : option string :=
  match requests_get env (clock st) (download_request url) with
  | Ok resp =>
      if bad_status resp then None
      else match open_write env (S (clock st)) dest with
           | Written => Some (content resp)
           | OpenFails _ | WriteFails _ => None
           end
  | Raise _ => None
  end.

(** What the direct step obtains from the world for a record reached in
    state [st]: its locator and the bytes downloaded from it. *)
Definition obtained_direct (item : syndrome) (env : Env) (st : State)
  : option (value * string) :=
  match image_url item with
  | Some u =>
      if PyStr.truthy u
      then match download_ok env st (VStr u) (dest_path item) with
           | Some bytes => Some (VStr u, bytes)
           | None => None
           end
      else None
  | None => None
  end.

(** What the lookup step obtains, entered in state [st_d]: the page URL
    and the bytes of the thumbnail. *)
Definition obtained_fallback (item : syndrome) (env : Env) (st_d : State)
  : option (value * string) :=
  let t := lookup_title item in
  match lookup_answer t (requests_get env (clock st_d) (lookup_request t)) with
  | Ok (thumb, page_url) =>
      if Py.truthy thumb
      then match download_ok env (record_request (lookup_request t) st_d)
                   thumb (dest_path item) with
           | Some bytes => Some (page_url, bytes)
           | None => None
           end
      else None
  | Raise _ => None
  end.

(** The image the world gives for a record reached in state [st]: the
    locator that worked and the bytes written to the destination path, or
    nothing when no download succeeded. *)
Definition obtained (item : syndrome) (env : Env) (st : State) : option (value * string) :=
  match obtained_direct item env st with
  | Some got => Some got
  | None => obtained_fallback item env (snd (direct_step item env st))
  end.

(** The picture of a record for which [got] was obtained. *)
Definition picture_of (item : syndrome) (got : option (value * string))
  : option (string * string) :=
  match got with
  | Some (_, bytes) => Some (dest_path item, bytes)
  | None => None
  end.

(** The reference entry of a record for which [got] was obtained. *)
Definition step_refs (env : Env) (step : syndrome * option (value * string)) : list string :=
  match snd step with
  | Some (locator, _) => [ ref_entry (fst step) (locator_text env locator) ]
  | None => []
  end.

Definition step_result (env : Env) (step : syndrome * option (value * string)) : result unit :=
  fst (slide_outcome env (fst step) (picture_of (fst step) (snd step))).

Definition step_slide (env : Env) (step : syndrome * option (value * string)) : slide :=
  snd (slide_outcome env (fst step) (picture_of (fst step) (snd step))).

(** The records the loop reaches, each with what was obtained for it in the
    state the loop had reached: the loop stops after the first record whose
    slide raises. *)
Fixpoint run_steps (items : list syndrome) (env : Env) (st : State)
  : list (syndrome * option (value * string)) :=
  match items with
  | [] => []
  | item :: rest =>
      let step := (item, obtained item env st) in
      step ::
      match step_result env step with
      | Ok _ => run_steps rest env (snd (loop_body item env st))
      | Raise _ => []
      end
  end.

(** How the loop ends after these steps. *)
Fixpoint steps_result (env : Env) (steps : list (syndrome * option (value * string)))
  : result unit :=
  match steps with
  | [] => Ok tt
  | step :: rest =>
      match step_result env step with
      | Ok _ => steps_result env rest
      | Raise e => Raise e
      end
  end.

Definition has_image (step : syndrome * option (value * string)) : bool :=
  match snd step with Some _ => true | None => false end.

(** The references and the deck once the loop is over. *)
Definition loop_refs (env : Env) (steps : list (syndrome * option (value * string)))
  : list string :=
  flat_map (step_refs env) steps.

Definition loop_deck (env : Env) (steps : list (syndrome * option (value * string)))
  : Presentation :=
  title_slide :: List.map (step_slide env) steps.

(** The deck handed to [prs.save] when the loop has completed. *)
Definition full_deck (env : Env) (steps : list (syndrome * option (value * string)))
  : Presentation :=
  loop_deck env steps ++ [ references_slide (loop_refs env steps ++ GENERAL_REFERENCES) ].



(** The file-name rule read in one pass, as a translation table: capital
    letters to small ones, space to underscore, slash to hyphen. *)
Definition TRANSLATED_FROM : string := "ABCDEFGHIJKLMNOPQRSTUVWXYZ /".
Definition TRANSLATED_TO : string := "abcdefghijklmnopqrstuvwxyz_-".

Fixpoint translate (from to : string) (c : ascii) : ascii :=
  match from, to with
  | String a from', String b to' => if Ascii.eqb c a then b else translate from' to' c
  | _, _ => c
  end.

Definition filename_char (c : ascii) : ascii :=
  translate TRANSLATED_FROM TRANSLATED_TO c.

Fixpoint occurs (c : ascii) (s : string) : bool :=
  match s with
  | EmptyString => false
  | String a s' => Ascii.eqb c a || occurs c s'
  end.

(** A character a file name may hold: no space, no slash, no capital. *)
Definition filesystem_safe (c : ascii) : bool :=
  negb (occurs c TRANSLATED_FROM).


(** A download of [bytes] to [dest] that the world lets succeed: a
    download request answered with a good status and these bytes, and a
    write of the destination file that goes through. *)
Definition downloaded (env : Env) (dest : string) (bytes : string) : Prop :=
  exists n url resp,
    requests_get env n (download_request url) = Ok resp /\
    bad_status resp = false /\
    open_write env (S n) dest = Written /\
    content resp = bytes.

(** ** Concrete worlds *)

(** A string given by the codes of its bytes. *)
Definition bytes_of (codes : list nat) : string :=
  fold_right (fun n s => String (ascii_of_nat n) s) EmptyString codes.

(** A GIF image of one pixel. *)
Definition GIF : string :=
  bytes_of [ 71; 73; 70; 56; 57; 97; 1; 0; 1; 0; 128; 0; 0; 0; 0; 0; 255; 255; 255;
             33; 249; 4; 1; 0; 0; 0; 0; 44; 0; 0; 0; 0; 1; 0; 1; 0; 0; 2; 2; 68; 1; 0; 59 ]%nat.

(** A library that reads the files that start as a GIF image does. *)
Definition reads_gif (bytes : string) : option exn :=
  if String.prefix "GIF8" bytes then None
  else Some (UnidentifiedImageError "cannot identify image file").

(** A world with the given network and disk. *)
Definition world (network : nat -> request -> result response)
                 (writes : nat -> string -> write_outcome) : Env :=
  {| requests_get := network;
     open_write := writes;
     image_error := reads_gif;
     none_text_error := TypeError;
     save := fun _ _ => SaveOk;
     package := fun _ => "PK";
     str_of := fun _ => "?" |}.

Definition empty_state : State :=
  {| clock := 0; sent := []; disk := ∅; stdout := [];
     prs := []; refs := []; saved := None |}.

(** The answer of the lookup service for one page with a thumbnail. *)
Definition one_page (title thumb : string) : value :=
  VDict [ ("batchcomplete", VStr "");
          ("query", VDict [
             ("pages", VDict [
                ("1234", VDict [
                   ("pageid", VInt 1234);
                   ("title", VStr title);
                   ("thumbnail", VDict [
                      ("source", VStr thumb);
                      ("width", VInt 800);
                      ("height", VInt 600) ]) ]) ]) ]) ].

Definition THUMB : string := "https://upload.wikimedia.org/thumb/800px-photo.jpg".

Definition is_lookup (rq : request) : bool :=
  match url rq with
  | VStr u => String.eqb u WIKI_ENDPOINT
  | _ => false
  end.

(** The service answers a lookup with a page titled as asked. *)
Definition lookup_echo (rq : request) : result response :=
  match Py.lookup "titles" (params rq) with
  | Some (VStr t) =>
      Ok {| status_code := 200; content := ""; json := Ok (one_page t THUMB) |}
  | _ => Raise (RequestException "bad request")
  end.

Definition image_bytes : response :=
  {| status_code := 200; content := GIF; json := Raise (JSONDecodeError "not JSON") |}.

(** A page of text where an image was asked for. *)
Definition html_page : response :=
  {| status_code := 200; content := "<html><body>Sign in to continue</body></html>";
     json := Raise (JSONDecodeError "not JSON") |}.

Definition not_found : response :=
  {| status_code := 404; content := ""; json := Raise (JSONDecodeError "not JSON") |}.

(** Everything works: lookups find a thumbnail, downloads and writes succeed. *)
Definition world_online : Env :=
  world (fun _ rq => if is_lookup rq then lookup_echo rq else Ok image_bytes)
        (fun _ _ => Written).

(** Lookups find a thumbnail, and every image download is answered 404. *)
Definition world_thumb_404 : Env :=
  world (fun _ rq => if is_lookup rq then lookup_echo rq else Ok not_found)
        (fun _ _ => Written).

(** The network works and no image file can be written. *)
Definition world_disk_full : Env :=
  world (fun _ rq => if is_lookup rq then lookup_echo rq else Ok image_bytes)
        (fun _ _ => WriteFails (OSError "No space left on device")).

(** Lookups find a thumbnail, and downloads are answered with a page of
    text and a good status. *)
Definition world_html : Env :=
  world (fun _ rq => if is_lookup rq then lookup_echo rq else Ok html_page)
        (fun _ _ => Written).


Definition apert : syndrome :=
  {| name := "Apert Syndrome";
     name_ascii := eq_refl;
     description := "Craniosynostosis with turribrachycephaly, midface hypoplasia, syndactyly; possible cleft palate.";
     anesthesia := [
       "Anticipate difficult mask/intubation (midface hypoplasia, choanal atresia)";
       "Screen for CHD; manage ICP if present";
       "Eye protection for proptosis; careful positioning" ];
     image_url := None;
     image_caption := Some (Some "Apert syndrome: syndactyly (Wikimedia Commons)") |}.

Definition saethre_chotzen : syndrome :=
  {| name := "Saethre-Chotzen Syndrome";
     name_ascii := eq_refl;
     description := "Craniosynostosis, facial asymmetry, ptosis, mild syndactyly.";
     anesthesia := [
       "Airway usually manageable; assess individually";
       "Monitor for ICP and hearing issues";
       "IV access may be challenging with limb anomalies" ];
     image_url := None;
     image_caption := Some (Some "Saethre-Chotzen syndrome (Wikimedia Commons)") |}.

Definition hemifacial : syndrome :=
  {| name := "Hemifacial Microsomia / Goldenhar";
     name_ascii := eq_refl;
     description := "Unilateral facial underdevelopment; ear anomalies; vertebral +/- cardiac defects.";
     anesthesia := [
       "Difficult intubation due to asymmetry/mandibular hypoplasia";
       "Evaluate cardiac/vertebral anomalies";
       "Careful positioning and padding" ];
     image_url := None;
     image_caption := Some (Some "Hemifacial microsomia (Wikimedia Commons)") |}.

(** A record that carries a direct image locator. *)
Definition DIRECT_URL : string := "https://upload.wikimedia.org/apert_hand.jpg".

Definition apert_with_url : syndrome :=
  {| name := "Apert Syndrome";
     name_ascii := eq_refl;
     description := "Craniosynostosis with turribrachycephaly, midface hypoplasia, syndactyly; possible cleft palate.";
     anesthesia := [];
     image_url := Some DIRECT_URL;
     image_caption := Some (Some "Apert syndrome: syndactyly (Wikimedia Commons)") |}.

Definition no_thumbnail (title : string) : value :=
  VDict [ ("batchcomplete", VStr "");
          ("query", VDict [
             ("pages", VDict [
                ("1234", VDict [ ("pageid", VInt 1234); ("title", VStr title) ]) ]) ]) ].

Definition world_no_thumbnail : Env :=
  world (fun _ rq =>
       if is_lookup rq
       then Ok {| status_code := 200; content := ""; json := Ok (no_thumbnail "Apert syndrome") |}
       else Ok image_bytes)
        (fun _ _ => Written).

(** A record whose caption key holds [None]. *)
Definition apert_no_caption : syndrome :=
  {| name := "Apert Syndrome";
     name_ascii := eq_refl;
     description := "Craniosynostosis with turribrachycephaly, midface hypoplasia, syndactyly; possible cleft palate.";
     anesthesia := [];
     image_url := None;
     image_caption := Some None |}.

(** ** Vocabulary and worlds of the further properties *)

(** A line printed by an [except] clause of the resolver functions. *)
Definition failure_line (l : line) : bool :=
  match l with
  | Failed_to_download _ _ | Wikipedia_API_failed _ _ => true
  | Saved _ => false
  end.

(** What a piece of the run does to the outside world between [st] and
    [st']: it sends between [lo] and [hi] requests, prints only failure
    lines, at most one per request, and creates files only at [dests]. *)
Definition effects (dests : gset string) (lo hi : nat) (st st' : State) : Prop :=
  (exists more lines,
     sent st' = sent st ++ more /\ (lo <= length more <= hi)%nat /\
     stdout st' = stdout st ++ lines /\
     Forall (fun l => failure_line l = true) lines /\
     (length lines <= length more)%nat) /\
  files st ⊆ files st' /\ files st' ⊆ dests ∪ files st.

(** The characters of a page URL: those [urllib.parse.quote] keeps, the
    percent sign of an escape and the colon of the scheme. *)
Definition url_char (c : ascii) : bool :=
  PyStr.quote_safe c || Ascii.eqb c "%" || Ascii.eqb c ":".

(** A lookup answered with the given pages. *)
Definition pages_answer (pages : list (string * value)) : response :=
  {| status_code := 200; content := "";
     json := Ok (VDict [ ("batchcomplete", VStr "");
                         ("query", VDict [ ("pages", VDict pages) ]) ]) |}.

Definition page_with_thumbnail (title thumb : string) : value :=
  VDict [ ("pageid", VInt 1234); ("title", VStr title);
          ("thumbnail", VDict [ ("source", VStr thumb) ]) ].

Definition page_without_thumbnail (title : string) : value :=
  VDict [ ("pageid", VInt 99); ("title", VStr title) ].

Definition world_of_lookup (answer : response) : Env :=
  world (fun _ rq => if is_lookup rq then Ok answer else Ok image_bytes)
        (fun _ _ => Written).

(** The second page is the first one with a thumbnail. *)
Definition world_second_page : Env :=
  world_of_lookup
    (pages_answer [ ("99", page_without_thumbnail "Apert");
                    ("1234", page_with_thumbnail "Apert syndrome" THUMB);
                    ("77", page_with_thumbnail "Acrocephalosyndactyly" THUMB) ]).

(** A page that is a number, before a page with a thumbnail. *)
Definition world_number_page : Env :=
  world_of_lookup
    (pages_answer [ ("99", VInt 7);
                    ("1234", page_with_thumbnail "Apert syndrome" THUMB) ]).

(** An answer without [query]. *)
Definition world_no_query : Env :=
  world_of_lookup
    {| status_code := 200; content := "";
       json := Ok (VDict [ ("batchcomplete", VStr "") ]) |}.

(** A thumbnail whose source is the empty string. *)
Definition world_empty_thumbnail : Env :=
  world_of_lookup (pages_answer [ ("1234", page_with_thumbnail "Apert syndrome" "") ]).

(** A record with an empty image locator and no override title. *)
Definition goldenhar : syndrome :=
  {| name := "Goldenhar Syndrome";
     name_ascii := eq_refl;
     description := "Unilateral facial underdevelopment; ear anomalies.";
     anesthesia := [ "Difficult intubation" ];
     image_url := Some "";
     image_caption := None |}.

(** A world that answers a request and a write the same way whenever they
    come. *)
Definition stationary (env : Env) : Prop :=
  (forall n m rq, requests_get env n rq = requests_get env m rq) /\
  (forall n m path, open_write env n path = open_write env m path).

(** A state left by an earlier run: files on disk, requests sent, a deck. *)
Definition used_state : State :=
  {| clock := 7; sent := [ lookup_request "Apert syndrome" ];
     disk := {[ "/workspace/presentation/images/apert_syndrome.jpg" := "stale bytes" ]};
     stdout := [ Saved OUTPUT_PPTX ];
     prs := [ title_slide ]; refs := [ "old" ]; saved := Some [ title_slide ] |}.

(** ** How the functions run *)

Lemma download_image_run url dest env st :
  download_image url dest env st =
  let rq := download_request url in
  let st1 := record_request rq st in
  match requests_get env (clock st) rq with
  | Raise e => (Ok None, add_line (Failed_to_download url e) st1)
  | Ok resp =>
      if bad_status resp
      then (Ok None, add_line (Failed_to_download url (HTTPError (status_code resp))) st1)
      else
        match open_write env (S (clock st)) dest with
        | Written => (Ok (Some dest), create_file dest (content resp) (tick st1))
        | OpenFails e => (Ok None, add_line (Failed_to_download url e) (tick st1))
        | WriteFails e =>
            (Ok None, add_line (Failed_to_download url e) (create_file dest "" (tick st1)))
        end
  end.
Proof.
  unfold download_image, try_except, bind, requests_get_, raise_for_status, write_file, print, modify, ret, raise, bad_status.
  cbn -[USER_AGENT].
  change {| url := url; params := []; headers := _; timeout := 30 |} with (download_request url).
  destruct (requests_get env (clock st) (download_request url)) as [resp|e]; [|reflexivity].
  destruct ((400 <=? status_code resp) && (status_code resp <? 600)); cbn; [reflexivity|].
  destruct (open_write env (S (clock st)) dest); reflexivity.
Qed.

Lemma fetch_wikipedia_thumbnail_run page_title env st :
  fetch_wikipedia_thumbnail page_title env st =
  let rq := lookup_request page_title in
  let st1 := record_request rq st in
  match lookup_answer page_title (requests_get env (clock st) rq) with
  | Ok found => (Ok found, st1)
  | Raise e => (Ok (VNone, VNone), add_line (Wikipedia_API_failed page_title e) st1)
  end.
Proof.
  unfold fetch_wikipedia_thumbnail, try_except, bind, requests_get_, raise_for_status,
    print, modify, ret, raise, lift, lookup_answer, bad_status.
  cbn -[USER_AGENT WIKI_ENDPOINT first_thumbnail Py.get Py.items].
  change {| url := VStr WIKI_ENDPOINT; params := _; headers := _; timeout := 30 |}
    with (lookup_request page_title).
  destruct (requests_get env (clock st) (lookup_request page_title)) as [r|e]; [|reflexivity].
  destruct ((400 <=? status_code r) && (status_code r <? 600)); cbn -[first_thumbnail Py.get Py.items]; [reflexivity|].
  destruct (json r) as [data|e]; [|reflexivity].
  destruct (Py.get data "query" (VDict [])) as [query|e]; [|reflexivity].
  destruct (Py.get query "pages" (VDict [])) as [pages|e]; [|reflexivity].
  destruct (Py.items pages) as [items|e]; [|reflexivity].
  destruct (first_thumbnail page_title items); reflexivity.
Qed.

Lemma first_thumbnail_found page_title items thumb page_url :
  first_thumbnail page_title items = Ok (thumb, page_url) ->
  (thumb = VNone /\ page_url = VNone) \/
  exists page_id page th t,
    In (page_id, page) items /\
    Py.getitem page "thumbnail" = Ok th /\
    Py.getitem th "source" = Ok thumb /\
    Py.get page "title" (VStr page_title) = Ok (VStr t) /\
    page_url = VStr (page_url_of t).
Proof.
  induction items as [|[page_id page] rest IH]; cbn -[Py.contains Py.getitem Py.get Py.replace].
  - intros [= <- <-]. by left.
  - destruct (Py.contains "thumbnail" page) as [[|]|e]; [| |discriminate].
    + destruct (Py.getitem page "thumbnail") as [th|e] eqn:Hth; [|discriminate].
      destruct (Py.getitem th "source") as [src|e] eqn:Hsrc; [|discriminate].
      destruct (Py.get page "title" (VStr page_title)) as [ttl|e] eqn:Httl; [|discriminate].
      destruct ttl as [| | | |t| |]; cbn; try discriminate.
      intros [= <- <-]. right. exists page_id, page, th, t.
      repeat split; auto. 
    + intros H. destruct (IH H) as [?|(pid & pg & th & t & Hin & ?)]; [by left|].
      right. exists pid, pg, th, t. split; [by right|done].
Qed.

Lemma files_create_file path data st :
  files (create_file path data st) = {[ path ]} ∪ files st.
Proof. unfold files. cbn. apply dom_insert_L. Qed.

Lemma frame_refl st : frame st st.
Proof. repeat split; auto. exists []. by rewrite app_nil_r. Qed.

Lemma frame_trans st1 st2 st3 : frame st1 st2 -> frame st2 st3 -> frame st1 st3.
Proof.
  intros (Hp & Hr & Hs & [m Hm] & Hf) (Hp' & Hr' & Hs' & [m' Hm'] & Hf').
  repeat split; try congruence.
  - exists (m ++ m'). by rewrite Hm', Hm, app_assoc.
  - set_solver.
Qed.

Lemma frame_record_request rq st : frame st (record_request rq st).
Proof. repeat split; auto. by exists [rq]. Qed.

Lemma frame_tick st : frame st (tick st).
Proof. repeat split; auto. exists []. by rewrite app_nil_r. Qed.

Lemma frame_add_line l st : frame st (add_line l st).
Proof. repeat split; auto. exists []. by rewrite app_nil_r. Qed.

Lemma frame_create_file path data st : frame st (create_file path data st).
Proof.
  repeat split; auto; [exists []; by rewrite app_nil_r |].
  rewrite files_create_file. set_solver.
Qed.

Ltac frame_chain :=
  repeat first
    [ apply frame_refl
    | eapply frame_trans; [| first [ apply frame_add_line | apply frame_create_file
                                   | apply frame_tick | apply frame_record_request ] ] ].

(** [download_image] always returns: nothing, or the destination path of a
    file that now exists. *)
Lemma download_image_returns url dest env st :
  exists img_path st',
    download_image url dest env st = (Ok img_path, st') /\
    frame st st' /\
    (img_path = None \/ (img_path = Some dest /\ dest ∈ files st')).
Proof.
  rewrite download_image_run. cbn zeta.
  destruct (requests_get env (clock st) (download_request url)) as [resp|e].
  - destruct (bad_status resp).
    + eexists _, _. split; [reflexivity|]. split; [frame_chain | by left].
    + destruct (open_write env (S (clock st)) dest).
      * eexists _, _. split; [reflexivity|]. split; [frame_chain|].
        right. split; [done|]. cbn. set_solver.
      * eexists _, _. split; [reflexivity|]. split; [frame_chain | by left].
      * eexists _, _. split; [reflexivity|]. split; [frame_chain | by left].
  - eexists _, _. split; [reflexivity|]. split; [frame_chain | by left].
Qed.

(** [fetch_wikipedia_thumbnail] always returns: [(None, None)], or a
    thumbnail with the page URL built from a title. *)
Lemma fetch_wikipedia_thumbnail_returns page_title env st :
  exists thumb page_url st',
    fetch_wikipedia_thumbnail page_title env st = (Ok (thumb, page_url), st') /\
    frame st st' /\
    ((thumb = VNone /\ page_url = VNone) \/ exists t, page_url = VStr (page_url_of t)).
Proof.
  rewrite fetch_wikipedia_thumbnail_run. cbn zeta.
  destruct (lookup_answer page_title _) as [[thumb page_url]|e] eqn:Hans.
  - exists thumb, page_url. eexists. split; [reflexivity|]. split; [frame_chain|].
    unfold lookup_answer in Hans.
    destruct (requests_get env (clock st) (lookup_request page_title)) as [r|]; [|discriminate].
    destruct (bad_status r); [discriminate|].
    destruct (json r) as [data|]; [|discriminate].
    destruct (Py.get data "query" (VDict [])) as [query|]; [|discriminate].
    destruct (Py.get query "pages" (VDict [])) as [pages|]; [|discriminate].
    destruct (Py.items pages) as [items|]; [|discriminate].
    destruct (first_thumbnail_found _ _ _ _ Hans) as [?|(? & ? & ? & t & ? & ? & ? & ? & ?)];
      [by left | right; by exists t].
  - exists VNone, VNone. eexists. split; [reflexivity|]. split; [frame_chain | by left].
Qed.

Lemma page_url_truthy t : Py.truthy (VStr (page_url_of t)) = true.
Proof. reflexivity. Qed.

Lemma filename_no_leading_slash item : String.prefix "/" (filename item) = false.
Proof.
  unfold filename.
  destruct (PyStr.replace " " "_" (PyStr.lower (name item) (name_ascii item))) as [|c s]; [reflexivity|].
  cbn. destruct (Ascii.eqb c "/") eqn:Hc; [reflexivity|].
  unfold Ascii.eqb in *.
  destruct c as [[] [] [] [] [] [] [] []]; try reflexivity. discriminate.
Qed.

Lemma dest_path_eq item : dest_path item = IMAGES_DIR +:+ "/" +:+ filename item.
Proof. unfold dest_path, os_path_join. by rewrite filename_no_leading_slash. Qed.

Lemma dest_path_truthy item : PyStr.truthy (dest_path item) = true.
Proof. by rewrite dest_path_eq. Qed.

Lemma direct_step_returns item env st :
  exists img_path img_url_used st',
    direct_step item env st = (Ok (img_path, img_url_used), st') /\
    frame st st' /\
    ((img_path = None /\ img_url_used = VNone) \/
     (img_path = Some (dest_path item) /\ dest_path item ∈ files st' /\
      exists u, image_url item = Some u /\ PyStr.truthy u = true /\ img_url_used = VStr u)).
Proof.
  unfold direct_step.
  destruct (image_url item) as [u|] eqn:Hu.
  - destruct (PyStr.truthy u) eqn:Htu.
    + unfold bind.
      destruct (download_image_returns (VStr u) (dest_path item) env st)
        as (p & st' & -> & Hfr & [->|[-> Hin]]).
      * exists None, VNone, st'. cbn. split; [done|]. split; [done | by left].
      * exists (Some (dest_path item)), (VStr u), st'. cbn.
        rewrite dest_path_truthy. split; [done|]. split; [done|].
        right. split; [done|]. split; [done|]. by exists u.
    + exists None, VNone, st. split; [done|]. split; [apply frame_refl | by left].
  - exists None, VNone, st. split; [done|]. split; [apply frame_refl | by left].
Qed.

Lemma fallback_step_returns item direct env st :
  exists img_path img_url_used st',
    fallback_step item direct env st = (Ok (img_path, img_url_used), st') /\
    frame st st' /\
    ((Py.truthy_opt (fst direct) = true /\ (img_path, img_url_used) = direct /\ st' = st) \/
     (Py.truthy_opt (fst direct) = false /\
      ((img_path = fst direct /\ img_url_used = snd direct) \/
       (img_path = None /\ exists t, img_url_used = VStr (page_url_of t)) \/
       (img_path = Some (dest_path item) /\ dest_path item ∈ files st' /\
        exists t, img_url_used = VStr (page_url_of t))))).
Proof.
  destruct direct as [p0 u0]. unfold fallback_step. cbn [fst snd].
  destruct (Py.truthy_opt p0) eqn:Hp0; cbn [negb].
  - exists p0, u0, st. split; [done|]. split; [apply frame_refl|]. by left.
  - unfold bind.
    destruct (fetch_wikipedia_thumbnail_returns (lookup_title item) env st)
      as (thumb & page_url & st1 & -> & Hfr1 & Hfound).
    destruct (Py.truthy thumb) eqn:Hthumb.
    + destruct Hfound as [[-> _]|[t ->]]; [discriminate|].
      destruct (download_image_returns thumb (dest_path item) env st1)
        as (p & st2 & -> & Hfr2 & [->|[-> Hin]]).
      * exists None, (VStr (page_url_of t)), st2. cbn.
        split; [done|]. split; [by eapply frame_trans|].
        right. split; [done|]. right. left. split; [done|]. by exists t.
      * exists (Some (dest_path item)), (VStr (page_url_of t)), st2. cbn.
        split; [done|]. split; [by eapply frame_trans|].
        right. split; [done|]. right. right. split; [done|]. split; [done|]. by exists t.
    + exists p0, u0, st1. cbn. split; [done|]. split; [done|].
      right. split; [done|]. by left.
Qed.

(** The resolver always returns: either no path, or the destination path
    of a file that exists with a non-empty string as locator. *)
Lemma resolve_image_returns item env st :
  exists img_path img_url_used st',
    resolve_image item env st = (Ok (img_path, img_url_used), st') /\
    frame st st' /\
    ((img_path = None /\
      (img_url_used = VNone \/ exists t, img_url_used = VStr (page_url_of t))) \/
     (img_path = Some (dest_path item) /\ dest_path item ∈ files st' /\
      exists s, img_url_used = VStr s /\ PyStr.truthy s = true)).
Proof.
  unfold resolve_image, bind.
  destruct (direct_step_returns item env st) as (p0 & u0 & st1 & -> & Hfr1 & Hdirect).
  destruct (fallback_step_returns item (p0, u0) env st1)
    as (p & u & st2 & -> & Hfr2 & Hfb).
  exists p, u, st2. split; [done|]. split; [by eapply frame_trans|].
  cbn [fst snd] in Hfb.
  destruct Hfb as [(Ht & [= -> ->] & ->)|(Hf & [[-> ->]|[[-> [t ->]]|(-> & Hin & t & ->)]])].
  - destruct Hdirect as [[-> _]|(-> & Hin & u' & _ & Htu & ->)]; [discriminate|].
    right. split; [done|]. split; [done|]. by exists u'.
  - destruct Hdirect as [[-> ->]|(-> & _)].
    + left. split; [done | by left].
    + cbn in Hf. by rewrite dest_path_truthy in Hf.
  - left. split; [done|]. right. by exists t.
  - right. split; [done|]. split; [done|]. by exists (page_url_of t).
Qed.

Lemma update_last_snoc {A} (f : A -> A) (l : list A) (x : A) :
  update_last f (l ++ [x]) = l ++ [f x].
Proof.
  induction l as [|a l IH]; [done|].
  cbn [app update_last]. rewrite IH.
  destruct (l ++ [x]) eqn:Hl; [by destruct l | done].
Qed.

Lemma exists_on_disk path st :
  bool_decide (path ∈ files st) = match disk st !! path with Some _ => true | None => false end.
Proof.
  unfold files. destruct (disk st !! path) as [bytes|] eqn:Hd.
  - apply bool_decide_eq_true_2, elem_of_dom. by exists bytes.
  - apply bool_decide_eq_false_2. rewrite elem_of_dom, Hd. by intros [? ?].
Qed.

(** What [add_syndrome_slide] returns and the slide it leaves in the deck. *)
Lemma add_syndrome_slide_run item image_path env st :
  add_syndrome_slide item image_path env st =
  (fst (slide_outcome env item (shown image_path st)),
   set_prs (prs st ++ [ snd (slide_outcome env item (shown image_path st)) ]) st).
Proof.
  unfold add_syndrome_slide, bind, append_slide, add_shape, update_slide, modify.
  cbn [prs set_prs]. rewrite update_last_snoc. cbn [shapes app slide_layout title placeholder_1].
  unfold shown, slide_outcome.
  destruct image_path as [path|]; [|reflexivity].
  destruct (PyStr.truthy path); [|reflexivity].
  unfold os_path_exists, ret. rewrite exists_on_disk. cbn [disk set_prs].
  destruct (disk st !! path) as [bytes|] eqn:Hd; [|reflexivity].
  unfold add_picture, add_shape, update_slide, modify. cbn [disk set_prs prs]. rewrite Hd.
  destruct (image_error env bytes) as [e|]; [reflexivity|].
  unfold set_text, update_shape, update_slide, modify, bind.
  unfold syndrome_slide, broken_caption_slide, caption_region, caption_text.
  destruct (image_caption item) as [[caption|]|];
    repeat (cbn [prs set_prs shapes app slide_layout title placeholder_1];
            rewrite ?update_last_snoc);
    cbn [update_last set_paragraphs map_paragraphs]; reflexivity.
Qed.

Lemma fold_add_paragraph entries tf :
  fold_left (fun tf ref =>
               tf ++ [ {| text := ref; level := 0%nat; font_size := Some (Pt 12) |} ])
            entries tf
  = tf ++ List.map reference_paragraph entries.
Proof.
  revert tf. induction entries as [|ref entries IH]; intros tf; cbn.
  - by rewrite app_nil_r.
  - rewrite IH, <- app_assoc. reflexivity.
Qed.

Lemma add_references_slide_run entries env st :
  add_references_slide entries env st =
  (Ok tt, set_prs (prs st ++ [references_slide entries]) st).
Proof.
  unfold add_references_slide, append_slide, modify, references_slide.
  by rewrite fold_add_paragraph.
Qed.

Lemma disk_create_file path data st :
  disk (create_file path data st) !! path = Some data.
Proof. cbn. apply lookup_insert_eq. Qed.

(** A download returns the path exactly when the world lets it succeed,
    and the file then holds the bytes of the response. *)
Lemma download_image_gets url dest env st :
  exists st',
    download_image url dest env st =
      (Ok (match download_ok env st url dest with Some _ => Some dest | None => None end),
       st') /\
    frame st st' /\
    match download_ok env st url dest with
    | Some bytes => disk st' !! dest = Some bytes
    | None => True
    end.
Proof.
  rewrite download_image_run. unfold download_ok. cbn zeta.
  destruct (requests_get env (clock st) (download_request url)) as [resp|e].
  - destruct (bad_status resp).
    + eexists. split; [reflexivity|]. split; [frame_chain | done].
    + destruct (open_write env (S (clock st)) dest).
      * eexists. split; [reflexivity|]. split; [frame_chain | apply disk_create_file].
      * eexists. split; [reflexivity|]. split; [frame_chain | done].
      * eexists. split; [reflexivity|]. split; [frame_chain | done].
  - eexists. split; [reflexivity|]. split; [frame_chain | done].
Qed.

Lemma download_ok_answer env st url dest bytes :
  download_ok env st url dest = Some bytes ->
  exists resp,
    requests_get env (clock st) (download_request url) = Ok resp /\
    bad_status resp = false /\
    open_write env (S (clock st)) dest = Written /\
    content resp = bytes.
Proof.
  unfold download_ok.
  destruct (requests_get env (clock st) (download_request url)) as [resp|]; [|done].
  destruct (bad_status resp) eqn:Hstatus; [done|].
  destruct (open_write env (S (clock st)) dest) eqn:Hwrite; [|done..].
  intros [= <-]. by exists resp.
Qed.

Lemma direct_step_gets item env st :
  exists st',
    direct_step item env st =
      (Ok (match obtained_direct item env st with
           | Some (locator, _) => (Some (dest_path item), locator)
           | None => (None, VNone)
           end), st') /\
    frame st st' /\
    match obtained_direct item env st with
    | Some (locator, bytes) =>
        disk st' !! dest_path item = Some bytes /\
        exists u, image_url item = Some u /\ PyStr.truthy u = true /\ locator = VStr u
    | None => True
    end.
Proof.
  unfold direct_step, obtained_direct.
  destruct (image_url item) as [u|].
  - destruct (PyStr.truthy u) eqn:Htu.
    + unfold bind.
      destruct (download_image_gets (VStr u) (dest_path item) env st) as (st' & -> & Hfr & Hd).
      exists st'. destruct (download_ok env st (VStr u) (dest_path item)) as [bytes|].
      * cbn. rewrite dest_path_truthy. split; [done|]. split; [done|]. split; [done|].
        by exists u.
      * cbn. done.
    + exists st. split; [done|]. split; [apply frame_refl | done].
  - exists st. split; [done|]. split; [apply frame_refl | done].
Qed.

Lemma lookup_answer_found page_title answer thumb page_url :
  lookup_answer page_title answer = Ok (thumb, page_url) ->
  (thumb = VNone /\ page_url = VNone) \/
  exists r data query pages items page_id page th t,
    answer = Ok r /\ bad_status r = false /\ json r = Ok data /\
    Py.get data "query" (VDict []) = Ok query /\
    Py.get query "pages" (VDict []) = Ok pages /\
    Py.items pages = Ok items /\
    In (page_id, page) items /\
    Py.getitem page "thumbnail" = Ok th /\
    Py.getitem th "source" = Ok thumb /\
    Py.get page "title" (VStr page_title) = Ok (VStr t) /\
    page_url = VStr (page_url_of t).
Proof.
  unfold lookup_answer. intros Hans.
  destruct answer as [r|]; [|discriminate].
  destruct (bad_status r) eqn:Hstatus; [discriminate|].
  destruct (json r) as [data|] eqn:Hjson; [|discriminate].
  destruct (Py.get data "query" (VDict [])) as [query|] eqn:Hquery; [|discriminate].
  destruct (Py.get query "pages" (VDict [])) as [pages|] eqn:Hpages; [|discriminate].
  destruct (Py.items pages) as [items|] eqn:Hitems; [|discriminate].
  destruct (first_thumbnail_found _ _ _ _ Hans)
    as [?|(page_id & page & th & t & ? & ? & ? & ? & ?)]; [by left | right].
  exists r, data, query, pages, items, page_id, page, th, t. done.
Qed.

(** The lookup step on a record left without image by the direct step. *)
Lemma fallback_step_run item env st :
  fallback_step item (None, VNone) env st =
  let t := lookup_title item in
  let st1 := record_request (lookup_request t) st in
  match lookup_answer t (requests_get env (clock st) (lookup_request t)) with
  | Ok (thumb, page_url) =>
      if Py.truthy thumb then
        let run := download_image thumb (dest_path item) env st1 in
        (match fst run with
         | Ok img_path => Ok (img_path, page_url)
         | Raise e => Raise e
         end, snd run)
      else (Ok (None, VNone), st1)
  | Raise e => (Ok (None, VNone), add_line (Wikipedia_API_failed t e) st1)
  end.
Proof.
  unfold fallback_step. cbn [Py.truthy_opt negb]. unfold bind.
  rewrite fetch_wikipedia_thumbnail_run. cbn zeta.
  destruct (lookup_answer _ _) as [[thumb page_url]|e] eqn:Hans; [|done].
  destruct (Py.truthy thumb) eqn:Hthumb; [|done].
  destruct (lookup_answer_found _ _ _ _ Hans)
    as [[-> _]|(? & ? & ? & ? & ? & ? & ? & ? & t & _ & _ & _ & _ & _ & _ & _ & _ & _ & _ & ->)];
    [discriminate|].
  destruct (download_image thumb (dest_path item) env _) as [[p|e] st2]; done.
Qed.

Lemma direct_step_absent item env st :
  image_url item = None -> direct_step item env st = (Ok (None, VNone), st).
Proof. intros H. unfold direct_step. by rewrite H. Qed.

Lemma fallback_step_gets item env st :
  exists outcome st',
    fallback_step item (None, VNone) env st = (Ok outcome, st') /\
    frame st st' /\
    match obtained_fallback item env st with
    | Some (locator, bytes) =>
        outcome = (Some (dest_path item), locator) /\
        disk st' !! dest_path item = Some bytes /\
        exists t, locator = VStr (page_url_of t)
    | None =>
        fst outcome = None /\
        (snd outcome = VNone \/ exists t, snd outcome = VStr (page_url_of t))
    end.
Proof.
  rewrite fallback_step_run. unfold obtained_fallback. cbn zeta.
  destruct (lookup_answer _ _) as [[thumb page_url]|e] eqn:Hans.
  - destruct (Py.truthy thumb) eqn:Hthumb.
    + destruct (lookup_answer_found _ _ _ _ Hans)
        as [[-> _]|(? & ? & ? & ? & ? & ? & ? & ? & t & _ & _ & _ & _ & _ & _ & _ & _ & _ & _ & ->)];
        [discriminate|].
      destruct (download_image_gets thumb (dest_path item) env
                  (record_request (lookup_request (lookup_title item)) st))
        as (st' & -> & Hfr & Hd).
      cbn [fst snd].
      destruct (download_ok env _ thumb (dest_path item)) as [bytes|].
      * eexists _, st'. split; [reflexivity|].
        split; [eapply frame_trans; [apply frame_record_request | exact Hfr]|].
        split; [done|]. split; [done|]. by exists t.
      * eexists _, st'. split; [reflexivity|].
        split; [eapply frame_trans; [apply frame_record_request | exact Hfr]|].
        split; [done|]. right. by exists t.
    + eexists _, _. split; [reflexivity|]. split; [frame_chain|]. split; [done | by left].
  - eexists _, _. split; [reflexivity|]. split; [frame_chain|]. split; [done | by left].
Qed.

(** The resolver returns what the world gives: the destination path and the
    locator that worked, with the downloaded bytes in the file, or no
    path. *)
Lemma resolve_image_obtained item env st :
  exists outcome st',
    resolve_image item env st = (Ok outcome, st') /\
    frame st st' /\
    match obtained item env st with
    | Some (locator, bytes) =>
        outcome = (Some (dest_path item), locator) /\
        disk st' !! dest_path item = Some bytes /\
        exists s, locator = VStr s /\ PyStr.truthy s = true
    | None => fst outcome = None
    end.
Proof.
  unfold resolve_image, bind, obtained.
  destruct (direct_step_gets item env st) as (st1 & Hd & Hfr1 & Hgot).
  rewrite Hd. cbn [snd].
  destruct (obtained_direct item env st) as [[locator bytes]|].
  - destruct Hgot as (Hdisk & u & _ & Htu & ->).
    unfold fallback_step. cbn [Py.truthy_opt]. rewrite dest_path_truthy. cbn [negb ret].
    eexists _, st1. split; [reflexivity|]. split; [done|].
    split; [done|]. split; [done|]. by exists u.
  - destruct (fallback_step_gets item env st1) as (outcome & st2 & -> & Hfr2 & Hfb).
    exists outcome, st2. split; [done|]. split; [by eapply frame_trans|].
    destruct (obtained_fallback item env st1) as [[locator bytes]|].
    + destruct Hfb as (-> & Hdisk & t & ->). split; [done|]. split; [done|].
      by exists (page_url_of t).
    + apply Hfb.
Qed.

(** One turn of the loop, by what the world gives for the record: the
    reference entry is added first, then the slide, which may raise. *)
Lemma loop_body_run item env st :
  let step := (item, obtained item env st) in
  exists st1 st2,
    snd (resolve_image item env st) = st1 /\
    frame st st1 /\
    loop_body item env st = (step_result env step, st2) /\
    prs st2 = prs st ++ [ step_slide env step ] /\
    refs st2 = refs st ++ step_refs env step /\
    saved st2 = saved st /\
    sent st2 = sent st1 /\ stdout st2 = stdout st1 /\ disk st2 = disk st1.
Proof.
  intros step.
  destruct (resolve_image_obtained item env st)
    as (outcome & st1 & Hres & Hfr & Hgot).
  pose proof Hfr as (Hprs & Hrefs & Hsaved & _).
  exists st1. unfold loop_body, bind. rewrite Hres. cbn [snd].
  unfold step, step_result, step_slide, step_refs, picture_of. cbn [fst snd].
  destruct (obtained item env st) as [[locator bytes]|].
  - destruct Hgot as (-> & Hdisk & s & -> & Hs).
    cbn [Py.truthy_opt Py.truthy]. rewrite dest_path_truthy, Hs. cbn [andb].
    unfold str, modify. rewrite add_syndrome_slide_run.
    assert (shown (Some (dest_path item))
              (set_refs (refs st1 ++ [ "Image: " +:+ name item +:+ " — " +:+ s ]) st1)
            = Some (dest_path item, bytes)) as ->.
    { unfold shown. rewrite dest_path_truthy. cbn [disk set_refs]. by rewrite Hdisk. }
    eexists. split; [done|]. split; [done|]. split; [reflexivity|].
    cbn. rewrite Hprs, Hrefs, Hsaved. done.
  - destruct outcome as [p u]. cbn in Hgot. subst p.
    cbn [Py.truthy_opt andb]. unfold ret. rewrite add_syndrome_slide_run.
    eexists. split; [done|]. split; [done|]. split; [reflexivity|].
    cbn. rewrite Hprs, Hrefs, Hsaved, app_nil_r. done.
Qed.

Lemma for_each_loop_body_run items env st :
  let steps := run_steps items env st in
  exists st',
    for_each loop_body items env st = (steps_result env steps, st') /\
    prs st' = prs st ++ List.map (step_slide env) steps /\
    refs st' = refs st ++ loop_refs env steps /\
    saved st' = saved st.
Proof.
  revert st. induction items as [|item rest IH]; intros st.
  - exists st. cbn. by rewrite !app_nil_r.
  - cbn [for_each run_steps]. cbn zeta. unfold bind.
    destruct (loop_body_run item env st)
      as (st1 & st2 & _ & _ & Hbody & Hprs & Hrefs & Hsaved & _).
    cbn zeta in Hbody. rewrite Hbody.
    cbn [steps_result List.map loop_refs flat_map].
    destruct (step_result env (item, obtained item env st)) as [[]|e] eqn:Hstep.
    + cbn [snd].
      destruct (IH st2) as (st' & -> & Hprs' & Hrefs' & Hsaved').
      exists st'. split; [done|].
      rewrite Hprs', Hrefs', Hsaved', Hprs, Hrefs, <- !app_assoc. done.
    + exists st2. split; [done|]. cbn. rewrite Hprs, Hrefs, app_nil_r. done.
Qed.

(** A run of [main]: when the loop completes, the references slide is added
    and the deck handed to [prs.save]; when a slide raises, the run stops
    there with the deck and the references built so far. *)
Lemma main_on_run items env st :
  let steps := run_steps items env (loop_start st) in
  exists st',
    snd (main_on items env st) = st' /\
    match steps_result env steps with
    | Ok _ =>
        fst (main_on items env st) =
          match save env (full_deck env steps) OUTPUT_PPTX with
          | SaveOk => Ok tt
          | SaveFails e _ => Raise e
          end /\
        prs st' = full_deck env steps /\
        refs st' = loop_refs env steps ++ GENERAL_REFERENCES /\
        saved st' =
          match save env (full_deck env steps) OUTPUT_PPTX with
          | SaveOk => Some (full_deck env steps)
          | SaveFails _ _ => saved st
          end
    | Raise e =>
        fst (main_on items env st) = Raise e /\
        prs st' = loop_deck env steps /\
        refs st' = loop_refs env steps /\
        saved st' = saved st
    end.
Proof.
  intros steps.
  unfold main_on, bind, add_title_slide, append_slide, modify, get_state.
  cbn [prs set_prs app].
  change (set_refs [] (set_prs _ (set_prs [] st))) with (loop_start st).
  destruct (for_each_loop_body_run items env (loop_start st))
    as (st1 & Hloop & Hprs & Hrefs & Hsaved).
  cbn zeta in Hloop. fold steps in Hloop, Hprs, Hrefs. rewrite Hloop.
  destruct (steps_result env steps) as [[]|e].
  - cbn [refs set_refs]. rewrite add_references_slide_run.
    unfold prs_save, print, modify. cbn [prs set_prs set_refs].
    rewrite Hprs, Hrefs. cbn [loop_start prs refs set_refs set_prs app].
    change (title_slide :: List.map (step_slide env) steps ++
              [ references_slide (loop_refs env steps ++ GENERAL_REFERENCES) ])
      with (full_deck env steps).
    destruct (save env (full_deck env steps) OUTPUT_PPTX) as [|e [bytes|]];
      eexists; (split; [reflexivity|]); cbn; rewrite ?Hsaved; done.
  - exists st1. cbn. rewrite Hprs, Hrefs, Hsaved. done.
Qed.

Lemma download_image_sends url dest env st :
  sent (snd (download_image url dest env st)) = sent st ++ [download_request url].
Proof.
  rewrite download_image_run. cbn zeta.
  destruct (requests_get env (clock st) (download_request url)) as [resp|e].
  - destruct (bad_status resp); [done|].
    destruct (open_write env (S (clock st)) dest); done.
  - done.
Qed.

Lemma direct_download_succeeds u dest env st resp :
  requests_get env (clock st) (download_request (VStr u)) = Ok resp ->
  bad_status resp = false ->
  open_write env (S (clock st)) dest = Written ->
  download_image (VStr u) dest env st =
    (Ok (Some dest),
     create_file dest (content resp) (tick (record_request (download_request (VStr u)) st))).
Proof.
  intros Hget Hstatus Hwrite. rewrite download_image_run. cbn zeta.
  by rewrite Hget, Hstatus, Hwrite.
Qed.

(** What was obtained was downloaded, and its locator is a non-empty
    string: the direct locator, or a page URL. *)
Lemma obtained_downloaded item env st locator bytes :
  obtained item env st = Some (locator, bytes) ->
  downloaded env (dest_path item) bytes /\
  exists s, locator = VStr s /\ PyStr.truthy s = true /\
            (image_url item = Some s \/ exists t, s = page_url_of t).
Proof.
  unfold obtained, obtained_direct, obtained_fallback.
  destruct (image_url item) as [u|] eqn:Hu.
  - destruct (PyStr.truthy u) eqn:Htu.
    + destruct (download_ok env st (VStr u) (dest_path item)) as [b|] eqn:Hok.
      * intros [= <- <-].
        destruct (download_ok_answer _ _ _ _ _ Hok) as (resp & ? & ? & ? & ?).
        split; [by exists (clock st), (VStr u), resp|].
        exists u. split; [done|]. split; [done | by left].
      * destruct (lookup_answer _ _) as [[thumb page_url]|] eqn:Hans; [|done].
        destruct (Py.truthy thumb) eqn:Hthumb; [|done].
        destruct (download_ok env _ thumb (dest_path item)) as [b|] eqn:Hok2; [|done].
        intros [= <- <-].
        destruct (download_ok_answer _ _ _ _ _ Hok2) as (resp & ? & ? & ? & ?).
        split; [by eexists _, thumb, resp|].
        destruct (lookup_answer_found _ _ _ _ Hans)
          as [[-> _]|(? & ? & ? & ? & ? & ? & ? & ? & t & _ & _ & _ & _ & _ & _ & _ & _ & _ & _ & ->)];
          [discriminate|].
        exists (page_url_of t). split; [done|]. split; [done|]. right. by exists t.
    + destruct (lookup_answer _ _) as [[thumb page_url]|] eqn:Hans; [|done].
      destruct (Py.truthy thumb) eqn:Hthumb; [|done].
      destruct (download_ok env _ thumb (dest_path item)) as [b|] eqn:Hok2; [|done].
      intros [= <- <-].
      destruct (download_ok_answer _ _ _ _ _ Hok2) as (resp & ? & ? & ? & ?).
      split; [by eexists _, thumb, resp|].
      destruct (lookup_answer_found _ _ _ _ Hans)
        as [[-> _]|(? & ? & ? & ? & ? & ? & ? & ? & t & _ & _ & _ & _ & _ & _ & _ & _ & _ & _ & ->)];
        [discriminate|].
      exists (page_url_of t). split; [done|]. split; [done|]. right. by exists t.
  - destruct (lookup_answer _ _) as [[thumb page_url]|] eqn:Hans; [|done].
    destruct (Py.truthy thumb) eqn:Hthumb; [|done].
    destruct (download_ok env _ thumb (dest_path item)) as [b|] eqn:Hok2; [|done].
    intros [= <- <-].
    destruct (download_ok_answer _ _ _ _ _ Hok2) as (resp & ? & ? & ? & ?).
    split; [by eexists _, thumb, resp|].
    destruct (lookup_answer_found _ _ _ _ Hans)
      as [[-> _]|(? & ? & ? & ? & ? & ? & ? & ? & t & _ & _ & _ & _ & _ & _ & _ & _ & _ & _ & ->)];
      [discriminate|].
    exists (page_url_of t). split; [done|]. split; [done|]. right. by exists t.
Qed.



(** The steps reached are the first records of the list, all of them when
    no slide raises. *)
Lemma run_steps_reached items env st :
  let steps := run_steps items env st in
  (exists rest, items = List.map fst steps ++ rest) /\
  (steps_result env steps = Ok tt -> List.map fst steps = items).
Proof.
  revert st. induction items as [|item rest IH]; intros st.
  - split; [by exists [] | done].
  - cbn [run_steps]. cbn zeta. cbn [List.map steps_result fst].
    destruct (step_result env (item, obtained item env st)) as [[]|e].
    + destruct (IH (snd (loop_body item env st))) as ([more Hmore] & Hok).
      split; [exists more; cbn; by rewrite <- Hmore|].
      intros H. by rewrite (Hok H).
    + split; [by exists rest | done].
Qed.

Lemma run_steps_length items env st :
  (length (run_steps items env st) <= length items)%nat.
Proof.
  destruct (run_steps_reached items env st) as [[rest Hrest] _].
  rewrite Hrest at 2. rewrite length_app, length_map. lia.
Qed.

(** Every step is a record of the list with what the world gave for it. *)
Lemma run_steps_obtained items env st :
  Forall (fun step => In (fst step) items /\ exists st0, snd step = obtained (fst step) env st0)
         (run_steps items env st).
Proof.
  revert st. induction items as [|item rest IH]; intros st; [constructor|].
  cbn [run_steps]. cbn zeta. constructor.
  - split; [by left | by exists st].
  - destruct (step_result env (item, obtained item env st)); [|constructor].
    eapply Forall_impl; [apply IH|]. intros step [Hin Hst]. split; [by right | done].
Qed.


Ltac union_subset :=
  let x := fresh "x" in
  intros x; rewrite ?elem_of_union, ?elem_of_empty; tauto.

Lemma effects_compose d1 d2 lo1 hi1 lo2 hi2 st st1 st2 :
  effects d1 lo1 hi1 st st1 -> effects d2 lo2 hi2 st1 st2 ->
  effects (d1 ∪ d2) (lo1 + lo2) (hi1 + hi2) st st2.
Proof.
  intros [H1 [Hsub1 Hsup1]] [H2 [Hsub2 Hsup2]].
  split; [|clear H1 H2; split; [by etrans|]].
  2:{ intros x Hx. apply Hsup2 in Hx. rewrite !elem_of_union in *.
      destruct Hx as [Hx|Hx]; [tauto|]. apply Hsup1 in Hx.
      rewrite elem_of_union in Hx. tauto. }
  destruct H1 as (m1 & l1 & Hs1 & Hb1 & Ho1 & Hf1 & Hl1).
  destruct H2 as (m2 & l2 & Hs2 & Hb2 & Ho2 & Hf2 & Hl2).
  exists (m1 ++ m2), (l1 ++ l2).
  rewrite Hs2, Hs1, Ho2, Ho1, <- !app_assoc, !length_app.
  repeat split; try lia. by apply Forall_app.
Qed.

Lemma effects_weaken d d' lo lo' hi hi' st st' :
  effects d lo hi st st' -> d ⊆ d' -> (lo' <= lo)%nat -> (hi <= hi')%nat ->
  effects d' lo' hi' st st'.
Proof.
  intros [H [Hsub Hsup]] Hd Hlo Hhi.
  split; [|clear H; split; [done|]].
  2:{ intros x Hx. apply Hsup in Hx. rewrite !elem_of_union in *.
      destruct Hx as [Hx|Hx]; [left; by apply Hd | tauto]. }
  destruct H as (m & l & Hs & Hb & Ho & Hf & Hl).
  exists m, l. repeat split; try done; lia.
Qed.

Lemma effects_none st : effects ∅ 0 0 st st.
Proof.
  split; [|split; set_solver].
  exists [], []. rewrite !app_nil_r. repeat split; try done.
Qed.

Lemma effects_same_world d lo hi st st1 st2 :
  effects d lo hi st st1 ->
  sent st2 = sent st1 -> stdout st2 = stdout st1 -> disk st2 = disk st1 ->
  effects d lo hi st st2.
Proof. unfold effects, files. intros H -> -> ->. exact H. Qed.

Lemma download_image_effects url dest env st :
  effects {[ dest ]} 1 1 st (snd (download_image url dest env st)).
Proof.
  rewrite download_image_run. cbn zeta.
  destruct (requests_get env (clock st) (download_request url)) as [resp|e].
  - destruct (bad_status resp).
    + split; [|cbn; split; set_solver].
      exists [download_request url], [Failed_to_download url (HTTPError (status_code resp))].
      cbn. repeat split; try done; try lia. by constructor.
    + destruct (open_write env (S (clock st)) dest).
      * split; [|cbn [snd]; rewrite files_create_file; cbn; split; set_solver].
        exists [download_request url], []. cbn. rewrite app_nil_r.
        repeat split; try done; lia.
      * split; [|cbn; split; set_solver].
        exists [download_request url], [Failed_to_download url e].
        cbn. repeat split; try done; try lia. by constructor.
      * split; [|cbn [snd]; unfold files; cbn; rewrite dom_insert_L; split; set_solver].
        exists [download_request url], [Failed_to_download url e].
        cbn. repeat split; try done; try lia. by constructor.
  - split; [|cbn; split; set_solver].
    exists [download_request url], [Failed_to_download url e].
    cbn. repeat split; try done; try lia. by constructor.
Qed.

Lemma fetch_wikipedia_thumbnail_effects page_title env st :
  effects ∅ 1 1 st (snd (fetch_wikipedia_thumbnail page_title env st)).
Proof.
  rewrite fetch_wikipedia_thumbnail_run. cbn zeta.
  destruct (lookup_answer _ _) as [found|e].
  - split; [|cbn; split; set_solver].
    exists [lookup_request page_title], []. cbn. rewrite app_nil_r.
    repeat split; try done; lia.
  - split; [|cbn; split; set_solver].
    exists [lookup_request page_title], [Wikipedia_API_failed page_title e].
    cbn. repeat split; try done; try lia. by constructor.
Qed.

Lemma direct_step_effects item env st :
  effects {[ dest_path item ]} 0 1 st (snd (direct_step item env st)) /\
  (Py.truthy_opt (image_url item) = true ->
   effects {[ dest_path item ]} 1 1 st (snd (direct_step item env st))) /\
  (Py.truthy_opt (image_url item) = false ->
   direct_step item env st = (Ok (None, VNone), st)).
Proof.
  unfold direct_step.
  destruct (image_url item) as [u|]; cbn [Py.truthy_opt].
  - destruct (PyStr.truthy u).
    + unfold bind.
      pose proof (download_image_effects (VStr u) (dest_path item) env st) as Heff.
      destruct (download_image_returns (VStr u) (dest_path item) env st)
        as (p & st1 & Hd & _). rewrite Hd in Heff |- *. cbn [snd ret] in *.
      split; [eapply effects_weaken; [exact Heff|done|lia|lia]|]. split; [done|discriminate].
    + split; [|split; [discriminate|done]].
      eapply effects_weaken; [apply effects_none|union_subset|lia|lia].
  - split; [|split; [discriminate|done]].
    eapply effects_weaken; [apply effects_none|union_subset|lia|lia].
Qed.

Lemma fallback_step_effects item env st :
  effects {[ dest_path item ]} 1 2 st (snd (fallback_step item (None, VNone) env st)).
Proof.
  unfold fallback_step. cbn [Py.truthy_opt negb]. unfold bind.
  pose proof (fetch_wikipedia_thumbnail_effects (lookup_title item) env st) as Hf.
  destruct (fetch_wikipedia_thumbnail_returns (lookup_title item) env st)
    as (thumb & page_url & st1 & Hfetch & _). rewrite Hfetch in Hf |- *. cbn [snd] in Hf.
  destruct (Py.truthy thumb).
  - pose proof (download_image_effects thumb (dest_path item) env st1) as Hd.
    destruct (download_image_returns thumb (dest_path item) env st1)
      as (p & st2 & Hdown & _). rewrite Hdown in Hd |- *. cbn [snd ret] in *.
    eapply effects_weaken; [exact (effects_compose _ _ _ _ _ _ _ _ _ Hf Hd)|union_subset|lia|lia].
  - cbn. eapply effects_weaken; [exact Hf|union_subset|lia|lia].
Qed.

(** The requests, lines and files of the resolver for one record. *)
Lemma resolve_image_effects item env st :
  effects {[ dest_path item ]} 1 3 st (snd (resolve_image item env st)).
Proof.
  unfold resolve_image, bind.
  destruct (direct_step_effects item env st) as (Hany & Hsome & Hnone).
  destruct (direct_step_returns item env st)
    as (p0 & u0 & st1 & Hd & _ & [[-> ->]|(-> & _ & u & Hu & Htu & ->)]).
  - rewrite Hd in Hany |- *. cbn [snd] in Hany.
    pose proof (fallback_step_effects item env st1) as Hfb.
    eapply effects_weaken; [exact (effects_compose _ _ _ _ _ _ _ _ _ Hany Hfb)|union_subset|lia|lia].
  - assert (Py.truthy_opt (image_url item) = true) as Ht by (by rewrite Hu).
    specialize (Hsome Ht). rewrite Hd in Hsome |- *. cbn [snd] in Hsome.
    unfold fallback_step. cbn [Py.truthy_opt]. rewrite dest_path_truthy. cbn.
    eapply effects_weaken; [exact Hsome|done|lia|lia].
Qed.

Lemma loop_body_effects item env st :
  effects {[ dest_path item ]} 1 3 st (snd (loop_body item env st)).
Proof.
  pose proof (resolve_image_effects item env st) as Heff.
  destruct (loop_body_run item env st)
    as (st1 & st2 & Hres & _ & Hbody & _ & _ & _ & Hsent & Hout & Hdisk).
  rewrite Hres in Heff. cbn zeta in Hbody. rewrite Hbody. cbn [snd].
  by eapply effects_same_world.
Qed.

(** The loop reaches the records of [run_steps] and no other. *)
Lemma for_each_loop_body_effects items env st :
  let steps := run_steps items env st in
  effects (list_to_set (List.map dest_path items)) (length steps) (3 * length steps)
          st (snd (for_each loop_body items env st)).
Proof.
  revert st. induction items as [|item rest IH]; intros st.
  - cbn. apply effects_none.
  - cbn [for_each run_steps]. cbn zeta. unfold bind.
    pose proof (loop_body_effects item env st) as Hb.
    destruct (loop_body_run item env st) as (? & st2 & _ & _ & Hbody & _).
    cbn zeta in Hbody. rewrite Hbody in Hb |- *. cbn [snd] in Hb.
    destruct (step_result env (item, obtained item env st)) as [[]|e].
    + cbn [snd]. specialize (IH st2). cbn zeta in IH.
      eapply effects_weaken; [exact (effects_compose _ _ _ _ _ _ _ _ _ Hb IH)|..].
      * cbn. set_solver.
      * cbn. lia.
      * cbn [length]. lia.
    + cbn [snd length]. eapply effects_weaken; [exact Hb|..].
      * cbn. set_solver.
      * lia.
      * lia.
Qed.

(** What a run of [main] does to the world: the effects of its loop, then
    the file of the deck and the last line when the run gets that far. *)
Lemma main_on_world items env st :
  let steps := run_steps items env (loop_start st) in
  let run := main_on items env st in
  exists st1,
    effects (list_to_set (List.map dest_path items)) (length steps) (3 * length steps) st st1 /\
    sent (snd run) = sent st1 /\
    stdout (snd run) =
      stdout st1 ++ match fst run with Ok _ => [ Saved OUTPUT_PPTX ] | Raise _ => [] end /\
    files st1 ⊆ files (snd run) /\
    files (snd run) ⊆ {[ OUTPUT_PPTX ]} ∪ files st1 /\
    (fst run = Ok tt ->
     disk (snd run) !! OUTPUT_PPTX = Some (package env (prs (snd run))) /\
     saved (snd run) = Some (prs (snd run))).
Proof.
  intros steps run.
  pose proof (for_each_loop_body_effects items env (loop_start st)) as Heff.
  cbn zeta in Heff. fold steps in Heff.
  unfold run, main_on, bind, add_title_slide, append_slide, modify, get_state.
  cbn [prs set_prs app].
  change (set_refs [] (set_prs _ (set_prs [] st))) with (loop_start st).
  destruct (for_each_loop_body_run items env (loop_start st))
    as (st1 & Hloop & Hprs & Hrefs & Hsaved).
  cbn zeta in Hloop. fold steps in Hloop. rewrite Hloop in Heff |- *. cbn [snd] in Heff.
  exists st1. split; [exact Heff|].
  destruct (steps_result env steps) as [[]|e].
  - cbn [refs set_refs]. rewrite add_references_slide_run.
    unfold prs_save, print, modify. cbn [prs set_prs set_refs].
    destruct (save env _ OUTPUT_PPTX) as [|e [bytes|]]; cbn [fst snd].
    + split; [done|]. split; [done|].
      unfold files. cbn. rewrite dom_insert_L.
      split; [set_solver|]. split; [set_solver|].
      intros _. split; [apply lookup_insert_eq | done].
    + split; [done|]. split; [by rewrite app_nil_r|].
      unfold files. cbn. rewrite dom_insert_L.
      split; [set_solver|]. split; [set_solver | done].
    + split; [done|]. split; [by rewrite app_nil_r|].
      unfold files. cbn. split; [set_solver|]. split; [set_solver | done].
  - cbn [fst snd]. split; [done|]. split; [by rewrite app_nil_r|].
    split; [set_solver|]. split; [set_solver | done].
Qed.

(** ** The claims *)




Lemma length_loop_refs env steps :
  length (loop_refs env steps) = length (List.filter has_image steps).
Proof.
  induction steps as [|[item got] steps IH]; [done|].
  unfold loop_refs in *. cbn [flat_map List.filter]. rewrite length_app, IH.
  unfold step_refs, has_image. cbn [fst snd].
  by destruct got as [[locator bytes]|].
Qed.







(** C3. For a record with a direct image locator, the first request of the
    resolver is the download of that locator; when this download succeeds
    it is the only request (no lookup is sent), the outcome is the
    destination path with the direct URL, and the reference entry of the
    record carries the direct URL. *)
Theorem direct_url_first (item : syndrome) (u : string) (env : Env) (st : State) :
  image_url item = Some u ->
  PyStr.truthy u = true ->
  (exists more,
     sent (snd (resolve_image item env st)) = sent st ++ download_request (VStr u) :: more) /\
  (forall resp,
     requests_get env (clock st) (download_request (VStr u)) = Ok resp ->
     bad_status resp = false ->
     open_write env (S (clock st)) (dest_path item) = Written ->
     fst (resolve_image item env st) = Ok (Some (dest_path item), VStr u) /\
     sent (snd (resolve_image item env st)) = sent st ++ [download_request (VStr u)] /\
     sent (snd (loop_body item env st)) = sent st ++ [download_request (VStr u)] /\
     refs (snd (loop_body item env st)) = refs st ++ [ "Image: " +:+ name item +:+ " — " +:+ u ]).
Proof.
  intros Hu Htu. split.
  - unfold resolve_image, bind, direct_step. rewrite Hu, Htu. unfold bind.
    pose proof (download_image_sends (VStr u) (dest_path item) env st) as Hsent.
    destruct (download_image_returns (VStr u) (dest_path item) env st)
      as (p & st1 & Hd & _). rewrite Hd in Hsent |- *. cbn [snd] in Hsent.
    unfold ret.
    destruct (fallback_step_returns item
                (p, if Py.truthy_opt p then VStr u else VNone) env st1)
      as (p2 & u2 & st2 & -> & (_ & _ & _ & [more Hmore] & _) & _).
    cbn. exists more. by rewrite Hmore, Hsent, <- app_assoc.
  - intros resp Hget Hstatus Hwrite.
    assert (resolve_image item env st =
            (Ok (Some (dest_path item), VStr u),
             create_file (dest_path item) (content resp)
               (tick (record_request (download_request (VStr u)) st)))) as Hres.
    { unfold resolve_image, bind, direct_step. rewrite Hu, Htu. unfold bind.
      rewrite (direct_download_succeeds _ _ _ _ _ Hget Hstatus Hwrite).
      unfold ret, fallback_step. cbn [Py.truthy_opt]. rewrite dest_path_truthy. done. }
    rewrite Hres. cbn [fst snd]. split; [done|]. split; [done|].
    unfold loop_body, bind. rewrite Hres.
    cbn [Py.truthy_opt Py.truthy]. rewrite dest_path_truthy, Htu. cbn [andb].
    unfold str, modify. rewrite add_syndrome_slide_run. cbn. done.
Qed.

Lemma direct_url_first_witness :
  image_url apert_with_url = Some DIRECT_URL /\
  PyStr.truthy DIRECT_URL = true /\
  fst (resolve_image apert_with_url world_online empty_state)
    = Ok (Some "/workspace/presentation/images/apert_syndrome.jpg", VStr DIRECT_URL) /\
  sent (snd (resolve_image apert_with_url world_online empty_state))
    = [download_request (VStr DIRECT_URL)] /\
  refs (snd (loop_body apert_with_url world_online empty_state))
    = [ "Image: Apert Syndrome — https://upload.wikimedia.org/apert_hand.jpg" ].
Proof.
  split; [reflexivity|]. split; [reflexivity|].
  destruct (direct_url_first apert_with_url DIRECT_URL world_online empty_state
              eq_refl eq_refl) as [_ H].
  destruct (H image_bytes eq_refl eq_refl eq_refl) as (H1 & H2 & _ & H5).
  split; [exact H1|]. split; [exact H2|exact H5].
Defined.

(** C4, at the input where the code leaves it. The record has no direct
    locator, the lookup returns a thumbnail and the download of the
    thumbnail is answered 404: both steps have failed and nothing was
    obtained, the slide has its text region only and no reference is
    added, but the outcome of the resolver is not [(None, None)]: line 276
    has set [img_url_used] to the page URL whether or not the download
    succeeded, where line 269 of the direct step resets it to [None] when
    its download fails. When the lookup returns no thumbnail the outcome
    is [(None, None)], as the claim says. *)
Theorem failed_thumbnail_keeps_page_url :
  fst (resolve_image apert world_no_thumbnail empty_state) = Ok (None, VNone) /\
  image_url apert = None /\
  lookup_answer (lookup_title apert)
    (requests_get world_thumb_404 0 (lookup_request (lookup_title apert)))
    = Ok (VStr THUMB, VStr "https://en.wikipedia.org/wiki/Apert_syndrome") /\
  fst (download_image (VStr THUMB) (dest_path apert) world_thumb_404
         (record_request (lookup_request (lookup_title apert)) empty_state)) = Ok None /\
  obtained apert world_thumb_404 empty_state = None /\
  fst (resolve_image apert world_thumb_404 empty_state)
    = Ok (None, VStr "https://en.wikipedia.org/wiki/Apert_syndrome") /\
  fst (direct_step apert_with_url world_thumb_404 empty_state) = Ok (None, VNone) /\
  fst (loop_body apert world_thumb_404 empty_state) = Ok tt /\
  prs (snd (loop_body apert world_thumb_404 empty_state)) = [ syndrome_slide apert None ] /\
  shapes (syndrome_slide apert None) = [ text_region apert ] /\
  refs (snd (loop_body apert world_thumb_404 empty_state)) = [].
Proof. repeat (split; [vm_compute; reflexivity|]). vm_compute; reflexivity. Qed.





(** C6, as the code has it. The writing of the image is inside the [try]
    of [download_image]: when the file cannot be opened or written, the
    error is caught, a line is printed and [None] is returned. *)
Theorem write_error_is_caught (url : value) (dest : string) (env : Env) (st : State)
    (resp : response) (e : exn) :
  requests_get env (clock st) (download_request url) = Ok resp ->
  bad_status resp = false ->
  open_write env (S (clock st)) dest = OpenFails e \/
  open_write env (S (clock st)) dest = WriteFails e ->
  fst (download_image url dest env st) = Ok None /\
  stdout (snd (download_image url dest env st)) = stdout st ++ [ Failed_to_download url e ].
Proof.
  intros Hget Hstatus Hwrite. rewrite download_image_run. cbn zeta.
  rewrite Hget, Hstatus. by destruct Hwrite as [-> | ->].
Qed.

Lemma write_error_is_caught_witness :
  requests_get world_disk_full 0 (download_request (VStr DIRECT_URL)) = Ok image_bytes /\
  bad_status image_bytes = false /\
  open_write world_disk_full 1 "/workspace/presentation/images/apert_syndrome.jpg"
    = WriteFails (OSError "No space left on device") /\
  fst (download_image (VStr DIRECT_URL) "/workspace/presentation/images/apert_syndrome.jpg"
         world_disk_full empty_state) = Ok None.
Proof.
  split; [reflexivity|]. split; [reflexivity|]. split; [reflexivity|].
  exact (proj1 (write_error_is_caught (VStr DIRECT_URL)
                  "/workspace/presentation/images/apert_syndrome.jpg"
                  world_disk_full empty_state image_bytes
                  (OSError "No space left on device") eq_refl eq_refl (or_intror eq_refl))).
Defined.

(** C6 as stated fails: a write that raises does not make
    [download_image] raise. *)
Lemma write_error_does_not_propagate :
  fst (download_image (VStr DIRECT_URL) "/workspace/presentation/images/apert_syndrome.jpg"
         world_disk_full empty_state) = Ok None /\
  ~ (forall url dest env st resp e,
       requests_get env (clock st) (download_request url) = Ok resp ->
       bad_status resp = false ->
       open_write env (S (clock st)) dest = WriteFails e ->
       fst (download_image url dest env st) = Raise e).
Proof.
  split; [reflexivity|].
  intros H.
  specialize (H (VStr DIRECT_URL) "/workspace/presentation/images/apert_syndrome.jpg"
                world_disk_full empty_state image_bytes
                (OSError "No space left on device") eq_refl eq_refl eq_refl).
  discriminate H.
Qed.

(** C7, as the code has it. When the direct step left no image, the lookup
    returned a usable thumbnail and the thumbnail download succeeded, the
    locator of the outcome and of the reference entry is the page URL: the
    fixed prefix followed by the percent-encoding ([urllib.parse.quote]) of
    the page title with spaces replaced by underscores, the title being
    that of the first returned page that has a thumbnail. It is neither the
    thumbnail URL nor the direct URL. *)
Theorem fallback_locator_is_page_url (item : syndrome) (env : Env) (st : State)
    (thumb page_url : value) :
  let st_d := snd (direct_step item env st) in
  let t := lookup_title item in
  fst (direct_step item env st) = Ok (None, VNone) ->
  lookup_answer t (requests_get env (clock st_d) (lookup_request t)) = Ok (thumb, page_url) ->
  Py.truthy thumb = true ->
  fst (download_image thumb (dest_path item) env (record_request (lookup_request t) st_d))
    = Ok (Some (dest_path item)) ->
  exists r data query pages items page_id page th title,
    requests_get env (clock st_d) (lookup_request t) = Ok r /\
    json r = Ok data /\
    Py.get data "query" (VDict []) = Ok query /\
    Py.get query "pages" (VDict []) = Ok pages /\
    Py.items pages = Ok items /\
    In (page_id, page) items /\
    Py.getitem page "thumbnail" = Ok th /\
    Py.getitem th "source" = Ok thumb /\
    Py.get page "title" (VStr t) = Ok (VStr title) /\
    page_url =
      VStr (WIKI_PAGE_PREFIX +:+ PyStr.quote (PyStr.replace " " "_" title)) /\
    fst (resolve_image item env st) = Ok (Some (dest_path item), page_url) /\
    refs (snd (loop_body item env st)) =
      refs st ++ [ "Image: " +:+ name item +:+ " — " +:+
                   WIKI_PAGE_PREFIX +:+ PyStr.quote (PyStr.replace " " "_" title) ].
Proof.
  intros st_d t Hdirect Hans Hthumb Hdown.
  destruct (lookup_answer_found _ _ _ _ Hans)
    as [[-> _]|(r & data & query & pages & items & page_id & page & th & title &
                Hget & _ & Hjson & Hquery & Hpages & Hitems & Hin & Hth & Hsrc & Httl & ->)];
    [discriminate|].
  exists r, data, query, pages, items, page_id, page, th, title.
  repeat (split; [done|]).
  assert (resolve_image item env st =
          (Ok (Some (dest_path item), VStr (page_url_of title)),
           snd (download_image thumb (dest_path item) env
                  (record_request (lookup_request t) st_d)))) as Hres.
  { unfold resolve_image, bind.
    destruct (direct_step item env st) as [r0 st0] eqn:Hd. cbn in Hdirect. subst r0.
    subst st_d. cbn [snd] in *.
    rewrite fallback_step_run. cbn zeta. fold t. rewrite Hans, Hthumb, Hdown. done. }
  split; [by rewrite Hres|].
  destruct (resolve_image_returns item env st) as (p & u & st1 & Hres' & (_ & Hrefs & _) & _).
  rewrite Hres in Hres'. injection Hres' as <- <- Hst1.
  unfold loop_body, bind. rewrite Hres, Hst1.
  cbn [Py.truthy_opt]. rewrite dest_path_truthy, page_url_truthy. cbn [andb].
  unfold str, modify. rewrite add_syndrome_slide_run. cbn. by rewrite Hrefs.
Qed.

Lemma fallback_locator_is_page_url_witness :
  fst (direct_step saethre_chotzen world_online empty_state) = Ok (None, VNone) /\
  fst (resolve_image saethre_chotzen world_online empty_state)
    = Ok (Some "/workspace/presentation/images/saethre-chotzen_syndrome.jpg",
          VStr "https://en.wikipedia.org/wiki/Saethre%E2%80%93Chotzen_syndrome").
Proof.
  split; [reflexivity|].
  destruct (fallback_locator_is_page_url saethre_chotzen world_online empty_state
              (VStr THUMB)
              (VStr "https://en.wikipedia.org/wiki/Saethre%E2%80%93Chotzen_syndrome")
              eq_refl eq_refl eq_refl eq_refl)
    as (_ & _ & _ & _ & _ & _ & _ & _ & _ & _ & _ & _ & _ & _ & _ & _ & _ & _ & _ & H & _).
  exact H.
Defined.

(** C7 as stated fails: the service returns a thumbnail and the title
    "Saethre–Chotzen syndrome", the thumbnail is downloaded, and the
    locator is not the prefix followed by the title with underscores: the
    dash of the title is percent-encoded. *)
Lemma page_url_is_percent_encoded :
  requests_get world_online 0 (lookup_request (lookup_title saethre_chotzen))
    = Ok {| status_code := 200; content := "";
            json := Ok (one_page "Saethre–Chotzen syndrome" THUMB) |} /\
  fst (resolve_image saethre_chotzen world_online empty_state)
    = Ok (Some "/workspace/presentation/images/saethre-chotzen_syndrome.jpg",
          VStr "https://en.wikipedia.org/wiki/Saethre%E2%80%93Chotzen_syndrome") /\
  "https://en.wikipedia.org/wiki/Saethre%E2%80%93Chotzen_syndrome"
    <> WIKI_PAGE_PREFIX +:+ PyStr.replace " " "_" "Saethre–Chotzen syndrome".
Proof.
  split; [reflexivity|]. split; [reflexivity|]. vm_compute. discriminate.
Qed.

(** C8, as the code has it. [add_references_slide] adds one slide titled
    "References" whose placeholder holds the empty paragraph [tf.clear()]
    left, then one paragraph per entry in the supplied order, each at 12
    points and level 0: one paragraph more than there are entries. *)
Theorem references_slide_paragraphs (entries : list string) (env : Env) (st : State) :
  fst (add_references_slide entries env st) = Ok tt /\
  exists s paragraphs,
    prs (snd (add_references_slide entries env st)) = prs st ++ [s] /\
    title s = "References" /\
    placeholder_1 s = Some paragraphs /\
    paragraphs =
      {| text := ""; level := 0; font_size := None |} ::
      List.map (fun ref => {| text := ref; level := 0; font_size := Some (Pt 12) |}) entries /\
    length paragraphs = S (length entries).
Proof.
  rewrite add_references_slide_run. split; [done|].
  exists (references_slide entries), (empty_paragraph :: List.map reference_paragraph entries).
  repeat (split; [done|]). cbn. by rewrite length_map.
Qed.

Lemma str_map_map f g s : PyStr.map f (PyStr.map g s) = PyStr.map (fun c => f (g c)) s.
Proof. induction s as [|c s IH]; cbn; [done | by rewrite IH]. Qed.

Lemma str_map_ext f g s : (forall c, f c = g c) -> PyStr.map f s = PyStr.map g s.
Proof. intros H. induction s as [|c s IH]; cbn; [done | by rewrite H, IH]. Qed.

Lemma all_map p f s : PyStr.all p (PyStr.map f s) = PyStr.all (fun c => p (f c)) s.
Proof. induction s as [|c s IH]; cbn; [done | by rewrite IH]. Qed.

Lemma all_true p s : (forall c, p c = true) -> PyStr.all p s = true.
Proof. intros H. induction s as [|c s IH]; cbn; [done | by rewrite H, IH]. Qed.

Lemma all_append p s1 s2 :
  PyStr.all p (s1 +:+ s2) = PyStr.all p s1 && PyStr.all p s2.
Proof. induction s1 as [|c s1 IH]; simpl; [done | by rewrite IH, andb_assoc]. Qed.

(** The three passes of the script over a character, against the table. *)
Lemma filename_char_passes c :
  (if Ascii.eqb (if Ascii.eqb (PyStr.lower_char c) " " then "_"%char
                 else PyStr.lower_char c) "/"
   then "-"%char
   else if Ascii.eqb (PyStr.lower_char c) " " then "_"%char
        else PyStr.lower_char c) = filename_char c.
Proof. destruct c as [[] [] [] [] [] [] [] []]; reflexivity. Qed.

Lemma filename_one_pass item :
  filename item = PyStr.map filename_char (name item) +:+ ".jpg".
Proof.
  unfold filename, PyStr.replace, PyStr.lower. rewrite !str_map_map. f_equal.
  apply str_map_ext. intros c. by rewrite <- filename_char_passes.
Qed.

Lemma filename_char_safe c : filesystem_safe (filename_char c) = true.
Proof. destruct c as [[] [] [] [] [] [] [] []]; reflexivity. Qed.

(** C9. The file name of a record is its name with every capital letter
    replaced by the small one, every space by an underscore and every
    slash by a hyphen, followed by ".jpg"; it holds no space, slash or
    capital. Over the shipped dataset the file names, and the destination
    paths, are pairwise distinct, the record whose name has a slash
    included. Record names are ASCII text. *)
Theorem filename_rule :
  (forall item, filename item = PyStr.map filename_char (name item) +:+ ".jpg") /\
  (forall item, PyStr.all filesystem_safe (filename item) = true) /\
  (forall item, dest_path item = "/workspace/presentation/images/" +:+ filename item) /\
  NoDup (List.map filename syndromes) /\
  NoDup (List.map dest_path syndromes) /\
  In hemifacial syndromes /\
  name hemifacial = "Hemifacial Microsomia / Goldenhar" /\
  filename hemifacial = "hemifacial_microsomia_-_goldenhar.jpg" /\
  (forall item, PyStr.all PyStr.is_ascii (name item) = true).
Proof.
  split; [apply filename_one_pass|].
  split.
  { intros item. rewrite filename_one_pass, all_append, all_map.
    rewrite all_true by apply filename_char_safe. reflexivity. }
  split; [intros item; by rewrite dest_path_eq|].
  split; [apply (bool_decide_unpack _); vm_compute; exact I|].
  split; [apply (bool_decide_unpack _); vm_compute; exact I|].
  split; [do 8 right; left; reflexivity|].
  split; [reflexivity|]. split; [reflexivity|].
  exact name_ascii.
Qed.

(** What was obtained for a record without direct locator came from the
    lookup: its locator is a page URL. *)
Lemma obtained_lookup_only item env st locator bytes :
  image_url item = None ->
  obtained item env st = Some (locator, bytes) ->
  exists title, locator = VStr (page_url_of title).
Proof.
  intros Hno Hgot.
  destruct (obtained_downloaded item env st locator bytes Hgot)
    as (_ & s & -> & _ & [Hu|[t ->]]); [congruence | by exists t].
Qed.

Lemma resolve_image_lookup_only item env st :
  image_url item = None ->
  direct_step item env st = (Ok (None, VNone), st) /\
  (exists more,
     sent (snd (resolve_image item env st)) = sent st ++ lookup_request (lookup_title item) :: more).
Proof.
  intros Hno. pose proof (direct_step_absent item env st Hno) as Hd.
  split; [done|].
  unfold resolve_image, bind. rewrite Hd, fallback_step_run. cbn zeta.
  destruct (lookup_answer _ _) as [[thumb page_url]|e] eqn:Hans.
  - destruct (Py.truthy thumb) eqn:Hthumb.
    + pose proof (download_image_sends thumb (dest_path item) env
                    (record_request (lookup_request (lookup_title item)) st)) as Hsent.
      cbn [snd]. eexists. rewrite Hsent. cbn. by rewrite <- app_assoc.
    + cbn. by exists [].
  - cbn. by exists [].
Qed.

Lemma loop_refs_lookup_only env items steps :
  Forall (fun item => image_url item = None) items ->
  Forall (fun step => In (fst step) items /\ exists st0, snd step = obtained (fst step) env st0)
         steps ->
  Forall (fun ref => exists item title,
            In item items /\ ref = ref_entry item (page_url_of title))
         (loop_refs env steps).
Proof.
  intros Hall. induction 1 as [|[item got] steps [Hin [st0 Hgot]] _ IH]; [constructor|].
  unfold loop_refs in *. cbn [flat_map]. apply Forall_app. split; [|exact IH].
  unfold step_refs. cbn [fst snd] in *.
  destruct got as [[locator bytes]|]; [|constructor].
  rewrite List.Forall_forall in Hall.
  destruct (obtained_lookup_only item env st0 locator bytes (Hall _ Hin) (eq_sym Hgot))
    as [title ->].
  constructor; [|constructor]. by exists item, title.
Qed.

(** The references of a run, stopped or not: the entries of the steps
    reached, then the general references when the loop was not stopped. *)
Lemma main_on_refs items env st :
  let steps := run_steps items env (loop_start st) in
  refs (snd (main_on items env st)) = loop_refs env steps \/
  refs (snd (main_on items env st)) = loop_refs env steps ++ GENERAL_REFERENCES.
Proof.
  intros steps.
  destruct (main_on_run items env st) as (st' & Hrun & Hmain).
  cbn zeta in Hmain. fold steps in Hmain. rewrite Hrun.
  destruct (steps_result env steps).
  - right. by destruct Hmain as (_ & _ & -> & _).
  - left. by destruct Hmain as (_ & _ & -> & _).
Qed.

(** C10. Every record of the shipped dataset has no direct image locator
    and an override in [fallback_titles]. So for each of them the direct
    step does nothing, the first request of the resolver is the lookup of
    the override title, and in every run of [main] each reference is one of
    the two general references or the entry of a record with a Wikipedia
    page URL as locator. *)
Theorem shipped_dataset_uses_lookup :
  Forall (fun item =>
            image_url item = None /\
            exists t, fallback_titles !! name item = Some t /\ lookup_title item = t)
         syndromes /\
  (forall env st,
     Forall (fun item =>
               direct_step item env st = (Ok (None, VNone), st) /\
               exists t more,
                 fallback_titles !! name item = Some t /\
                 sent (snd (resolve_image item env st)) = sent st ++ lookup_request t :: more)
            syndromes) /\
  (forall env st,
     Forall (fun ref =>
               In ref GENERAL_REFERENCES \/
               exists item title,
                 In item syndromes /\
                 ref = "Image: " +:+ name item +:+ " — " +:+
                       WIKI_PAGE_PREFIX +:+ PyStr.quote (PyStr.replace " " "_" title))
            (refs (snd (main env st)))).
Proof.
  assert (Forall (fun item =>
            image_url item = None /\
            exists t, fallback_titles !! name item = Some t /\ lookup_title item = t)
         syndromes) as Hdata.
  { repeat constructor; by eexists. }
  split; [exact Hdata|]. split.
  - intros env st. eapply Forall_impl; [exact Hdata|].
    intros item (Hno & t & Ht & Hlt).
    destruct (resolve_image_lookup_only item env st Hno) as (Hd & [more Hsent]).
    split; [done|]. exists t, more. split; [done|]. by rewrite <- Hlt.
  - intros env st. unfold main.
    assert (Forall (fun ref =>
               In ref GENERAL_REFERENCES \/
               exists item title,
                 In item syndromes /\
                 ref = "Image: " +:+ name item +:+ " — " +:+
                       WIKI_PAGE_PREFIX +:+ PyStr.quote (PyStr.replace " " "_" title))
              (loop_refs env (run_steps syndromes env (loop_start st)))) as Hloop.
    { eapply Forall_impl.
      - apply (loop_refs_lookup_only env syndromes); [|apply run_steps_obtained].
        eapply Forall_impl; [exact Hdata|]. by intros ? [? _].
      - intros ref (item & title & Hin & ->). right. by exists item, title. }
    destruct (main_on_refs syndromes env st) as [-> | ->]; [exact Hloop|].
    apply Forall_app. split; [exact Hloop|].
    apply List.Forall_forall. intros ref Hin. by left.
Qed.

(** ** Further properties *)

Lemma first_thumbnail_skip page_title skipped rest :
  Forall (fun kv : string * value => Py.contains "thumbnail" (snd kv) = Ok false) skipped ->
  first_thumbnail page_title (skipped ++ rest) = first_thumbnail page_title rest.
Proof.
  induction 1 as [|[page_id page] skipped Hpage _ IH]; [done|].
  cbn [app first_thumbnail]. cbn [snd] in Hpage. by rewrite Hpage.
Qed.

Lemma lookup_answer_pages page_title r data query pages :
  bad_status r = false ->
  json r = Ok (VDict data) ->
  Py.lookup "query" data = Some (VDict query) ->
  Py.lookup "pages" query = Some (VDict pages) ->
  lookup_answer page_title (Ok r) = first_thumbnail page_title pages.
Proof.
  intros Hstatus Hjson Hquery Hpages. unfold lookup_answer.
  rewrite Hstatus, Hjson. cbn [Py.get]. rewrite Hquery. cbn [Py.get].
  rewrite Hpages. reflexivity.
Qed.

(** X1. The lookup is decided by the first page, in the order of the
    answer, that has a thumbnail: pages without one before it are skipped
    and pages after it are not looked at. The page URL is built from the
    title of that page, or from the title that was asked when the page has
    none; a title that is not a string gives [(None, None)]. *)
Theorem first_page_with_thumbnail_wins (page_title : string) (env : Env) (st : State)
    (r : response) (data query skipped rest page th : list (string * value))
    (page_id : string) (thumb : value) :
  requests_get env (clock st) (lookup_request page_title) = Ok r ->
  bad_status r = false ->
  json r = Ok (VDict data) ->
  Py.lookup "query" data = Some (VDict query) ->
  Py.lookup "pages" query = Some (VDict (skipped ++ (page_id, VDict page) :: rest)) ->
  Forall (fun kv : string * value => Py.contains "thumbnail" (snd kv) = Ok false) skipped ->
  Py.lookup "thumbnail" page = Some (VDict th) ->
  Py.lookup "source" th = Some thumb ->
  fst (fetch_wikipedia_thumbnail page_title env st) =
    match Py.lookup "title" page with
    | None =>
        Ok (thumb, VStr (WIKI_PAGE_PREFIX +:+ PyStr.quote (PyStr.replace " " "_" page_title)))
    | Some (VStr t) =>
        Ok (thumb, VStr (WIKI_PAGE_PREFIX +:+ PyStr.quote (PyStr.replace " " "_" t)))
    | Some _ => Ok (VNone, VNone)
    end.
Proof.
  intros Hget Hstatus Hjson Hquery Hpages Hskip Hth Hsrc.
  rewrite fetch_wikipedia_thumbnail_run. cbn zeta.
  rewrite Hget, (lookup_answer_pages _ _ _ _ _ Hstatus Hjson Hquery Hpages).
  rewrite first_thumbnail_skip by done.
  cbn [first_thumbnail Py.contains Py.getitem Py.get]. rewrite Hth. cbn [Py.getitem].
  rewrite Hsrc.
  destruct (Py.lookup "title" page) as [[| | | |t| |]|]; reflexivity.
Qed.

Lemma first_page_with_thumbnail_wins_witness :
  fst (fetch_wikipedia_thumbnail "Apert syndrome" world_second_page empty_state)
  = Ok (VStr THUMB, VStr "https://en.wikipedia.org/wiki/Apert_syndrome").
Proof.
  exact (first_page_with_thumbnail_wins "Apert syndrome" world_second_page empty_state
           _ _ _ [ ("99", page_without_thumbnail "Apert") ]
           [ ("77", page_with_thumbnail "Acrocephalosyndactyly" THUMB) ]
           _ _ "1234" (VStr THUMB)
           eq_refl eq_refl eq_refl eq_refl eq_refl
           ltac:(repeat constructor) eq_refl eq_refl).
Defined.

Lemma first_thumbnail_raises page_title page_id page rest e :
  first_thumbnail page_title [ (page_id, page) ] = Raise e ->
  first_thumbnail page_title ((page_id, page) :: rest) = Raise e.
Proof.
  cbn [first_thumbnail].
  destruct (Py.contains "thumbnail" page) as [[|]|]; [|discriminate|done].
  destruct (Py.getitem page "thumbnail") as [th|]; [|done].
  destruct (Py.getitem th "source") as [thumb|]; [|done].
  destruct (Py.get page "title" (VStr page_title)) as [ttl|]; [|done].
  destruct (Py.replace ttl " " "_"); [discriminate|done].
Qed.

(** X2. A page on which the loop raises (a page that is no container, a
    thumbnail without source, a title that is no string) ends the whole
    lookup: the function prints the failure and returns [(None, None)],
    whatever pages come after it. *)
Theorem raising_page_ends_lookup (page_title : string) (env : Env) (st : State)
    (r : response) (data query skipped rest : list (string * value))
    (page_id : string) (page : value) (e : exn) :
  requests_get env (clock st) (lookup_request page_title) = Ok r ->
  bad_status r = false ->
  json r = Ok (VDict data) ->
  Py.lookup "query" data = Some (VDict query) ->
  Py.lookup "pages" query = Some (VDict (skipped ++ (page_id, page) :: rest)) ->
  Forall (fun kv : string * value => Py.contains "thumbnail" (snd kv) = Ok false) skipped ->
  first_thumbnail page_title [ (page_id, page) ] = Raise e ->
  fst (fetch_wikipedia_thumbnail page_title env st) = Ok (VNone, VNone) /\
  stdout (snd (fetch_wikipedia_thumbnail page_title env st))
    = stdout st ++ [ Wikipedia_API_failed page_title e ].
Proof.
  intros Hget Hstatus Hjson Hquery Hpages Hskip Hraise.
  rewrite fetch_wikipedia_thumbnail_run. cbn zeta.
  rewrite Hget, (lookup_answer_pages _ _ _ _ _ Hstatus Hjson Hquery Hpages).
  rewrite first_thumbnail_skip by done.
  rewrite (first_thumbnail_raises _ _ _ _ _ Hraise). done.
Qed.

Lemma raising_page_ends_lookup_witness :
  fst (fetch_wikipedia_thumbnail "Apert syndrome" world_number_page empty_state)
    = Ok (VNone, VNone) /\
  stdout (snd (fetch_wikipedia_thumbnail "Apert syndrome" world_number_page empty_state))
    = [ Wikipedia_API_failed "Apert syndrome" TypeError ].
Proof.
  exact (raising_page_ends_lookup "Apert syndrome" world_number_page empty_state
           _ _ _ [] [ ("1234", page_with_thumbnail "Apert syndrome" THUMB) ]
           "99" (VInt 7) TypeError
           eq_refl eq_refl eq_refl eq_refl eq_refl ltac:(constructor) eq_refl).
Defined.

(** X3. An answer without [query], or whose [query] has no [pages], is
    not an error: the defaults of [get] make the loop run over nothing and
    the function returns [(None, None)] without printing. *)
Theorem missing_query_is_silent (page_title : string) (env : Env) (st : State)
    (r : response) (data : list (string * value)) :
  requests_get env (clock st) (lookup_request page_title) = Ok r ->
  bad_status r = false ->
  json r = Ok (VDict data) ->
  Py.lookup "query" data = None \/
  (exists query, Py.lookup "query" data = Some (VDict query) /\
                 Py.lookup "pages" query = None) ->
  fst (fetch_wikipedia_thumbnail page_title env st) = Ok (VNone, VNone) /\
  stdout (snd (fetch_wikipedia_thumbnail page_title env st)) = stdout st.
Proof.
  intros Hget Hstatus Hjson Hmissing.
  rewrite fetch_wikipedia_thumbnail_run. cbn zeta. rewrite Hget.
  unfold lookup_answer. rewrite Hstatus, Hjson. cbn [Py.get].
  destruct Hmissing as [-> | (query & -> & Hpages)].
  - done.
  - cbn [Py.get]. rewrite Hpages. done.
Qed.

Lemma missing_query_is_silent_witness :
  fst (fetch_wikipedia_thumbnail "Apert syndrome" world_no_query empty_state)
    = Ok (VNone, VNone) /\
  stdout (snd (fetch_wikipedia_thumbnail "Apert syndrome" world_no_query empty_state)) = [].
Proof.
  exact (missing_query_is_silent "Apert syndrome" world_no_query empty_state
           _ _ eq_refl eq_refl eq_refl (or_introl eq_refl)).
Defined.

(** X4. [download_image] sends exactly one request. It prints one failure
    line exactly when it returns [None], and prints nothing when it
    returns the path, whose file then exists. It touches the disk only
    after a response with a good status: when the request raises or the
    status is an error no file is created. *)
Theorem download_prints_iff_it_fails (url : value) (dest : string) (env : Env) (st : State) :
  let run := download_image url dest env st in
  sent (snd run) = sent st ++ [ download_request url ] /\
  match fst run with
  | Ok (Some path) =>
      path = dest /\ stdout (snd run) = stdout st /\ files (snd run) = {[ dest ]} ∪ files st
  | Ok None =>
      (exists e, stdout (snd run) = stdout st ++ [ Failed_to_download url e ]) /\
      (files (snd run) = files st \/ files (snd run) = {[ dest ]} ∪ files st)
  | Raise _ => False
  end /\
  match requests_get env (clock st) (download_request url) with
  | Ok resp => if bad_status resp then files (snd run) = files st else True
  | Raise _ => files (snd run) = files st
  end.
Proof.
  intros run. split; [apply download_image_sends|].
  unfold run. rewrite download_image_run. cbn zeta.
  destruct (requests_get env (clock st) (download_request url)) as [resp|e].
  - destruct (bad_status resp).
    + cbn. split; [|done]. split; [by eexists | by left].
    + destruct (open_write env (S (clock st)) dest); cbn [fst snd].
      * rewrite files_create_file. done.
      * split; [|done]. split; [by eexists | by left].
      * split; [|done]. split; [by eexists | right].
        unfold files. cbn. apply dom_insert_L.
  - cbn. split; [|done]. split; [by eexists | by left].
Qed.

Lemma fallback_step_sends item env st :
  exists more,
    sent (snd (fallback_step item (None, VNone) env st))
      = sent st ++ lookup_request (lookup_title item) :: more /\
    (length more <= 1)%nat.
Proof.
  rewrite fallback_step_run. cbn zeta.
  destruct (lookup_answer _ _) as [[thumb page_url]|e].
  - destruct (Py.truthy thumb).
    + cbn [snd]. rewrite download_image_sends. cbn [sent record_request].
      exists [download_request thumb]. rewrite <- app_assoc. split; [done | cbn; lia].
    + exists []. split; [done | cbn; lia].
  - exists []. split; [done | cbn; lia].
Qed.

Lemma fallback_step_locator item env st outcome :
  fst (fallback_step item (None, VNone) env st) = Ok outcome ->
  snd outcome = VNone \/ exists title, snd outcome = VStr (page_url_of title).
Proof.
  destruct (fallback_step_returns item (None, VNone) env st)
    as (p & u & st' & -> & _ & [(Ht & _)|(_ & [[_ ->]|[[_ [t ->]]|(_ & _ & t & ->)]])]);
    cbn; [discriminate| | |]; intros [= <-]; cbn; eauto.
Qed.

(** X5. When the download of the direct locator fails, whatever the
    failure, the resolver goes on with the lookup: its second request is
    the lookup of the record's title, followed by at most one thumbnail
    download, and the locator it ends with is never taken from the direct
    step: it is absent or a page URL. *)
Theorem failed_direct_download_falls_back (item : syndrome) (u : string)
    (env : Env) (st : State) :
  image_url item = Some u ->
  PyStr.truthy u = true ->
  fst (download_image (VStr u) (dest_path item) env st) = Ok None ->
  (exists more,
     sent (snd (resolve_image item env st))
       = sent st ++ download_request (VStr u) :: lookup_request (lookup_title item) :: more /\
     (length more <= 1)%nat) /\
  exists outcome,
    fst (resolve_image item env st) = Ok outcome /\
    (snd outcome = VNone \/ exists title, snd outcome = VStr (page_url_of title)).
Proof.
  intros Hu Htu Hfail.
  pose proof (download_image_sends (VStr u) (dest_path item) env st) as Hsent.
  unfold resolve_image, bind, direct_step. rewrite Hu, Htu. unfold bind.
  destruct (download_image (VStr u) (dest_path item) env st) as [r st1].
  cbn [fst snd] in *. subst r. cbn [ret Py.truthy_opt].
  split.
  - destruct (fallback_step_sends item env st1) as (more & Hmore & Hlen).
    exists more. rewrite Hmore, Hsent, <- app_assoc. done.
  - destruct (fallback_step_returns item (None, VNone) env st1) as (p & w & st2 & Hfb & _).
    exists (p, w). split; [by rewrite Hfb|].
    apply (fallback_step_locator item env st1). by rewrite Hfb.
Qed.

Lemma failed_direct_download_falls_back_witness :
  image_url apert_with_url = Some DIRECT_URL /\
  PyStr.truthy DIRECT_URL = true /\
  fst (download_image (VStr DIRECT_URL) (dest_path apert_with_url)
         world_thumb_404 empty_state) = Ok None /\
  exists more,
    sent (snd (resolve_image apert_with_url world_thumb_404 empty_state))
      = sent empty_state ++
        download_request (VStr DIRECT_URL) ::
        lookup_request (lookup_title apert_with_url) :: more /\
    (length more <= 1)%nat.
Proof.
  split; [reflexivity|]. split; [reflexivity|]. split; [reflexivity|].
  exact (proj1 (failed_direct_download_falls_back apert_with_url DIRECT_URL
                  world_thumb_404 empty_state eq_refl eq_refl eq_refl)).
Defined.

(** X6. A record whose [image_url] is missing, [None] or the empty string
    gets no direct download: the first request of the resolver is the
    lookup, for the override of [fallback_titles] when the name of the
    record has one and for the name itself otherwise; at most one
    thumbnail download follows. *)
Theorem no_locator_goes_to_lookup (item : syndrome) (env : Env) (st : State) :
  Py.truthy_opt (image_url item) = false ->
  exists more,
    sent (snd (resolve_image item env st))
      = sent st ++
        lookup_request (match fallback_titles !! name item with
                        | Some override => override
                        | None => name item
                        end) :: more /\
    (length more <= 1)%nat.
Proof.
  intros Hno.
  destruct (direct_step_effects item env st) as (_ & _ & Hnone).
  unfold resolve_image, bind. rewrite (Hnone Hno).
  destruct (fallback_step_sends item env st) as (more & Hmore & Hlen).
  exists more. split; [|done]. rewrite Hmore. unfold lookup_title.
  by destruct (fallback_titles !! name item).
Qed.

Lemma no_locator_goes_to_lookup_witness :
  Py.truthy_opt (image_url goldenhar) = false /\
  exists more,
    sent (snd (resolve_image goldenhar world_online empty_state))
      = sent empty_state ++
        lookup_request (match fallback_titles !! name goldenhar with
                        | Some override => override
                        | None => name goldenhar
                        end) :: more /\
    (length more <= 1)%nat.
Proof.
  split; [reflexivity|].
  exact (no_locator_goes_to_lookup goldenhar world_online empty_state eq_refl).
Defined.

(** X7. A thumbnail that is false in Python (missing value, empty string,
    zero, empty container) is not downloaded: after the lookup the resolver
    sends nothing more, writes nothing, and its outcome is [(None, None)]. *)
Theorem false_thumbnail_is_not_downloaded (item : syndrome) (env : Env) (st : State)
    (thumb page_url : value) :
  Py.truthy_opt (image_url item) = false ->
  lookup_answer (lookup_title item)
    (requests_get env (clock st) (lookup_request (lookup_title item))) = Ok (thumb, page_url) ->
  Py.truthy thumb = false ->
  fst (resolve_image item env st) = Ok (None, VNone) /\
  sent (snd (resolve_image item env st)) = sent st ++ [ lookup_request (lookup_title item) ] /\
  files (snd (resolve_image item env st)) = files st /\
  stdout (snd (resolve_image item env st)) = stdout st.
Proof.
  intros Hno Hans Hthumb.
  destruct (direct_step_effects item env st) as (_ & _ & Hnone).
  unfold resolve_image, bind. rewrite (Hnone Hno), fallback_step_run. cbn zeta.
  rewrite Hans, Hthumb. done.
Qed.

Lemma false_thumbnail_is_not_downloaded_witness :
  fst (resolve_image apert world_empty_thumbnail empty_state) = Ok (None, VNone) /\
  sent (snd (resolve_image apert world_empty_thumbnail empty_state))
    = [ lookup_request "Apert syndrome" ].
Proof.
  destruct (false_thumbnail_is_not_downloaded apert world_empty_thumbnail empty_state
              (VStr "") (VStr "https://en.wikipedia.org/wiki/Apert_syndrome")
              eq_refl eq_refl eq_refl) as (H1 & H2 & _).
  split; [exact H1 | exact H2].
Defined.

(** A run that returns has gone through its whole loop. *)
Lemma main_on_returns items env st :
  fst (main_on items env st) = Ok tt ->
  let steps := run_steps items env (loop_start st) in
  steps_result env steps = Ok tt /\
  List.map fst steps = items /\
  prs (snd (main_on items env st)) = full_deck env steps /\
  refs (snd (main_on items env st)) = loop_refs env steps ++ GENERAL_REFERENCES.
Proof.
  intros Hok steps.
  destruct (main_on_run items env st) as (st' & Hrun & Hmain).
  cbn zeta in Hmain. fold steps in Hmain.
  destruct (run_steps_reached items env (loop_start st)) as [_ Hitems]. fold steps in Hitems.
  destruct (steps_result env steps) as [[]|e].
  - destruct Hmain as (_ & Hprs & Hrefs & _). rewrite Hrun. auto.
  - destruct Hmain as (Hfst & _). rewrite Hfst in Hok. discriminate.
Qed.

(** X8. The resolver sends at least one and at most three requests for a
    record (the direct download, the lookup, the thumbnail download), and
    never the same step twice: a run of [main] over [n] records sends at
    most [3 * n] requests, and at least [n] when it returns. *)
Theorem requests_are_bounded (env : Env) (st : State) :
  (forall item,
     exists more,
       sent (snd (resolve_image item env st)) = sent st ++ more /\
       (1 <= length more <= 3)%nat) /\
  (forall items,
     exists more,
       sent (snd (main_on items env st)) = sent st ++ more /\
       (length more <= 3 * length items)%nat /\
       (fst (main_on items env st) = Ok tt -> (length items <= length more)%nat)).
Proof.
  split.
  - intros item.
    destruct (resolve_image_effects item env st) as [(more & _ & Hs & Hb & _) _].
    by exists more.
  - intros items.
    destruct (main_on_world items env st)
      as (st1 & [(more & _ & Hs & Hb & _) _] & Hsent & _).
    pose proof (run_steps_length items env (loop_start st)) as Hlen.
    exists more. rewrite Hsent. split; [done|]. split; [lia|].
    intros Hok. destruct (main_on_returns items env st Hok) as (_ & Hitems & _).
    apply (f_equal length) in Hitems. rewrite length_map in Hitems. lia.
Qed.

Lemma requests_are_bounded_witness :
  fst (main world_online empty_state) = Ok tt /\
  exists more,
    sent (snd (main world_online empty_state)) = more /\
    (10 <= length more <= 30)%nat.
Proof.
  split; [vm_compute; reflexivity|].
  destruct (proj2 (requests_are_bounded world_online empty_state) syndromes)
    as (more & Hsent & Hhi & Hlo).
  exists more. split; [exact Hsent|].
  split; [exact (Hlo ltac:(vm_compute; reflexivity)) | exact Hhi].
Defined.

(** X9. The only files a run creates or overwrites are the destination
    paths of its records and, at the end, the output file: after [main]
    the files are those there were before, together with some of these
    paths, and when [main] returns the output file holds the saved deck. *)
Theorem only_destination_paths_are_written (items : list syndrome) (env : Env) (st : State) :
  let st' := snd (main_on items env st) in
  files st ⊆ files st' /\
  files st' ⊆ {[ OUTPUT_PPTX ]} ∪ list_to_set (List.map dest_path items) ∪ files st /\
  (fst (main_on items env st) = Ok tt ->
   OUTPUT_PPTX ∈ files st' /\
   disk st' !! OUTPUT_PPTX = Some (package env (prs st')) /\
   saved st' = Some (prs st')).
Proof.
  intros st'.
  destruct (main_on_world items env st)
    as (st1 & [_ [Hsub Hsup]] & _ & _ & Hsub' & Hsup' & Hfile).
  cbn zeta in Hsub', Hsup', Hfile. fold st' in Hsub', Hsup', Hfile.
  split; [by etrans|]. split.
  - intros x Hx. apply Hsup' in Hx. rewrite !elem_of_union in *.
    destruct Hx as [Hx|Hx]; [tauto|]. apply Hsup in Hx.
    rewrite elem_of_union in Hx. tauto.
  - intros Hok. destruct (Hfile Hok) as [Hdisk Hsaved].
    split; [|done]. unfold files. apply elem_of_dom. by eexists.
Qed.

Lemma only_destination_paths_are_written_witness :
  fst (main world_online empty_state) = Ok tt /\
  OUTPUT_PPTX ∈ files (snd (main world_online empty_state)).
Proof.
  split; [vm_compute; reflexivity|].
  exact (proj1 (proj2 (proj2 (only_destination_paths_are_written syndromes world_online
                                empty_state)) ltac:(vm_compute; reflexivity))).
Defined.

(** X10. What a run prints: failure lines of the two resolver functions,
    at most one per request sent, and then the line [Saved: ...] exactly
    when [main] returns, that is when no slide and no save has raised. *)
Theorem printed_lines (items : list syndrome) (env : Env) (st : State) :
  exists failures more,
    sent (snd (main_on items env st)) = sent st ++ more /\
    Forall (fun l => failure_line l = true) failures /\
    (length failures <= length more)%nat /\
    stdout (snd (main_on items env st)) =
      stdout st ++ failures ++
      match fst (main_on items env st) with
      | Ok _ => [ Saved OUTPUT_PPTX ]
      | Raise _ => []
      end.
Proof.
  destruct (main_on_world items env st)
    as (st1 & [(more & lines & Hs & _ & Ho & Hf & Hl) _] & Hsent & Hstdout & _).
  cbn zeta in Hstdout.
  exists lines, more. rewrite Hsent, Hstdout, Ho, <- app_assoc. done.
Qed.

Lemma has_picture_step_slide env step :
  (has_picture (step_slide env step) = true -> has_image step = true) /\
  (step_result env step = Ok tt -> has_picture (step_slide env step) = has_image step).
Proof.
  destruct step as [item got].
  unfold step_slide, step_result, has_image, slide_outcome, picture_of. cbn [fst snd].
  destruct got as [[locator bytes]|]; [|done].
  destruct (image_error env bytes); [done|].
  destruct (image_caption item) as [[caption|]|]; done.
Qed.

Lemma pictures_of_steps env steps :
  (length (List.filter has_picture (List.map (step_slide env) steps))
   <= length (List.filter has_image steps))%nat /\
  (steps_result env steps = Ok tt ->
   length (List.filter has_picture (List.map (step_slide env) steps))
   = length (List.filter has_image steps)).
Proof.
  induction steps as [|step steps [IHle IHeq]]; [done|].
  destruct (has_picture_step_slide env step) as [Hpic Hsame].
  cbn [List.map List.filter steps_result]. split.
  - destruct (has_picture (step_slide env step)).
    + rewrite (Hpic eq_refl). cbn. lia.
    + destruct (has_image step); cbn; lia.
  - destruct (step_result env step) as [[]|e]; [|done].
    intros Hrest. rewrite (Hsame eq_refl).
    destruct (has_image step); cbn; by rewrite (IHeq Hrest).
Qed.

(** X11. Pictures and references go together. The deck of a run holds the
    slides of the records the loop has reached and its reference list
    their entries; a slide shows a picture only when its record has an
    entry, so there are never more slides with a picture than entries, and
    when [main] returns the number of slides with a picture is the number
    of references minus the two general ones. *)
Theorem every_picture_has_its_reference (items : list syndrome) (env : Env) (st : State) :
  let st' := snd (main_on items env st) in
  exists steps last_slide last_refs,
    prs st' = title_slide :: List.map (step_slide env) steps ++ last_slide /\
    refs st' = flat_map (step_refs env) steps ++ last_refs /\
    Forall (fun step =>
              In (fst step) items /\
              (has_picture (step_slide env step) = true -> length (step_refs env step) = 1%nat))
           steps /\
    (length (List.filter has_picture (prs st')) <= length (flat_map (step_refs env) steps))%nat /\
    (fst (main_on items env st) = Ok tt ->
     List.map fst steps = items /\
     (length (List.filter has_picture (prs st')) + 2)%nat = length (refs st')).
Proof.
  intros st'.
  set (steps := run_steps items env (loop_start st)).
  destruct (pictures_of_steps env steps) as [Hle Heq].
  assert (Forall (fun step =>
              In (fst step) items /\
              (has_picture (step_slide env step) = true -> length (step_refs env step) = 1%nat))
           steps) as Hsteps.
  { eapply Forall_impl; [apply run_steps_obtained|].
    intros step [Hin _]. split; [done|]. intros Hpic.
    apply (has_picture_step_slide env step) in Hpic.
    unfold has_image, step_refs in *. by destruct (snd step) as [[locator bytes]|]. }
  destruct (main_on_run items env st) as (st1 & Hrun & Hmain).
  cbn zeta in Hmain. fold steps in Hmain.
  assert (st' = st1) as Hst' by (unfold st'; by rewrite Hrun).
  destruct (steps_result env steps) as [[]|e] eqn:Hres.
  - destruct Hmain as (_ & Hprs & Hrefs & _).
    exists steps, [ references_slide (loop_refs env steps ++ GENERAL_REFERENCES) ],
           GENERAL_REFERENCES.
    rewrite Hst', Hprs, Hrefs. split; [done|]. split; [done|]. split; [exact Hsteps|].
    assert (length (List.filter has_picture (full_deck env steps))
            = length (List.filter has_image steps)) as Hcount.
    { unfold full_deck, loop_deck. rewrite List.filter_app. cbn. rewrite app_nil_r.
      by apply Heq. }
    rewrite Hcount. fold (loop_refs env steps). rewrite length_loop_refs.
    split; [lia|]. intros _.
    destruct (run_steps_reached items env (loop_start st)) as [_ Hitems].
    split; [by apply Hitems|].
    rewrite length_app, length_loop_refs. reflexivity.
  - destruct Hmain as (Hfst & Hprs & Hrefs & _).
    exists steps, [], []. rewrite Hst', Hprs, Hrefs, !app_nil_r.
    split; [done|]. split; [done|]. split; [exact Hsteps|].
    split; [|rewrite Hfst; discriminate].
    unfold loop_deck. cbn. fold (loop_refs env steps). rewrite length_loop_refs. exact Hle.
Qed.

Lemma every_picture_has_its_reference_witness :
  fst (main world_online empty_state) = Ok tt /\
  (length (List.filter has_picture (prs (snd (main world_online empty_state)))) + 2)%nat
    = length (refs (snd (main world_online empty_state))).
Proof.
  split; [vm_compute; reflexivity|].
  destruct (every_picture_has_its_reference syndromes world_online empty_state)
    as (steps & last_slide & last_refs & _ & _ & _ & _ & H).
  exact (proj2 (H ltac:(vm_compute; reflexivity))).
Defined.

Lemma hex_digit_url_char c :
  url_char (PyStr.hex_digit (nat_of_ascii c / 16)) = true /\
  url_char (PyStr.hex_digit (nat_of_ascii c mod 16)) = true.
Proof. destruct c as [[] [] [] [] [] [] [] []]; split; reflexivity. Qed.

Lemma quote_url_chars s : PyStr.all url_char (PyStr.quote s) = true.
Proof.
  induction s as [|c s IH]; [done|]. cbn [PyStr.quote].
  destruct (PyStr.quote_safe c) eqn:Hsafe.
  - cbn [PyStr.all]. unfold url_char at 1. by rewrite Hsafe, IH.
  - cbn [PyStr.all]. destruct (hex_digit_url_char c) as [-> ->]. by rewrite IH.
Qed.

Lemma prefix_append p s : String.prefix p (p +:+ s) = true.
Proof.
  induction p as [|a p IH]; simpl; [by destruct s|].
  destruct (ascii_dec a a); [exact IH | congruence].
Qed.

Lemma url_char_ascii c : url_char c = true -> PyStr.is_ascii c = true /\ Ascii.eqb c " " = false.
Proof. destruct c as [[] [] [] [] [] [] [] []]; cbn; intros H; try discriminate H; done. Qed.

(** X12. The page URL built from any title is a plain ASCII URL: after the
    prefix come only letters, digits, [_ . - ~ /] and percent escapes, so
    it holds no space and no byte of a non-ASCII character, whatever the
    lookup service put in the title. *)
Theorem page_url_is_plain_ascii (title : string) :
  PyStr.all url_char (page_url_of title) = true /\
  PyStr.all (fun c => PyStr.is_ascii c && negb (Ascii.eqb c " ")) (page_url_of title) = true /\
  String.prefix "https://en.wikipedia.org/wiki/" (page_url_of title) = true.
Proof.
  assert (PyStr.all url_char (page_url_of title) = true) as Hall.
  { unfold page_url_of. rewrite all_append, quote_url_chars. reflexivity. }
  split; [exact Hall|]. split; [|apply prefix_append].
  revert Hall. generalize (page_url_of title) as s.
  induction s as [|c s IH]; [done|]. cbn [PyStr.all].
  intros [Hc Hs]%andb_prop. destruct (url_char_ascii c Hc) as [-> ->]. by rewrite IH.
Qed.

(** X13. The picture of a record's slide needs a path and a file: with no
    path, an empty path or a path at which no file exists,
    [add_syndrome_slide] returns and the slide holds the text region only.
    A slide never shows a picture otherwise, and when the function returns
    with a path and a file the slide holds the text region, the picture
    and its caption; the text region is the same in all cases. *)
Theorem picture_needs_an_existing_file (item : syndrome) (image_path : option string)
    (env : Env) (st : State) :
  let with_picture :=
    match image_path with
    | Some path => PyStr.truthy path && bool_decide (path ∈ files st)
    | None => false
    end in
  let run := add_syndrome_slide item image_path env st in
  exists s others,
    prs (snd run) = prs st ++ [ s ] /\
    title s = name item /\
    shapes s = text_region item :: others /\
    (with_picture = false -> fst run = Ok tt /\ others = []) /\
    (has_picture s = true -> with_picture = true) /\
    (fst run = Ok tt ->
     has_picture s = with_picture /\
     length others = if with_picture then 2%nat else 0%nat).
Proof.
  intros with_picture run. unfold run. rewrite add_syndrome_slide_run. cbn [fst snd prs set_prs].
  unfold with_picture, shown, slide_outcome.
  destruct image_path as [path|]; [|by exists (syndrome_slide item None), []].
  rewrite exists_on_disk.
  destruct (PyStr.truthy path); [|by exists (syndrome_slide item None), []].
  destruct (disk st !! path) as [bytes|]; [|by exists (syndrome_slide item None), []].
  destruct (image_error env bytes) as [e|]; [by exists (syndrome_slide item None), []|].
  destruct (image_caption item) as [[caption|]|].
  - by exists (syndrome_slide item (Some path)), [ image_region path; caption_region item ].
  - by exists (broken_caption_slide item path), [ image_region path; emptied_caption_region ].
  - by exists (syndrome_slide item (Some path)), [ image_region path; caption_region item ].
Qed.

Lemma picture_needs_an_existing_file_witness :
  fst (add_syndrome_slide apert (Some "/workspace/presentation/images/apert_syndrome.jpg")
         world_online empty_state) = Ok tt /\
  prs (snd (add_syndrome_slide apert (Some "/workspace/presentation/images/apert_syndrome.jpg")
              world_online empty_state)) = [ syndrome_slide apert None ].
Proof.
  destruct (picture_needs_an_existing_file apert
              (Some "/workspace/presentation/images/apert_syndrome.jpg")
              world_online empty_state)
    as (s & others & Hprs & _ & Hshapes & Hnone & _).
  destruct (Hnone eq_refl) as [Hok _].
  split; [exact Hok | reflexivity].
Defined.

Lemma download_ok_stationary env url dest st st2 :
  stationary env -> download_ok env st url dest = download_ok env st2 url dest.
Proof.
  intros [Hnet Hdisk]. unfold download_ok.
  by rewrite (Hnet (clock st) (clock st2)), (Hdisk (S (clock st)) (S (clock st2))).
Qed.

Lemma obtained_stationary env item st st2 :
  stationary env -> obtained item env st = obtained item env st2.
Proof.
  intros Hst.
  assert (forall sa sb, obtained_fallback item env sa = obtained_fallback item env sb) as Hfb.
  { intros sa sb. unfold obtained_fallback. cbn zeta.
    rewrite (proj1 Hst (clock sa) (clock sb)).
    destruct (lookup_answer _ _) as [[thumb page_url]|e]; [|done].
    destruct (Py.truthy thumb); [|done].
    by rewrite (download_ok_stationary env thumb (dest_path item)
                  (record_request (lookup_request (lookup_title item)) sa)
                  (record_request (lookup_request (lookup_title item)) sb) Hst). }
  unfold obtained, obtained_direct.
  destruct (image_url item) as [u|]; [|apply Hfb].
  destruct (PyStr.truthy u); [|apply Hfb].
  rewrite (download_ok_stationary env (VStr u) (dest_path item) st st2 Hst).
  destruct (download_ok env st2 (VStr u) (dest_path item)); [done | apply Hfb].
Qed.

Lemma run_steps_stationary env items st st2 :
  stationary env -> run_steps items env st = run_steps items env st2.
Proof.
  intros Hst. revert st st2. induction items as [|item rest IH]; intros st st2; [done|].
  cbn [run_steps]. cbn zeta. rewrite (obtained_stationary env item st st2 Hst).
  destruct (step_result env (item, obtained item env st2)); [|done].
  f_equal. apply IH.
Qed.

(** X14. Running again gives the same deck: in a world whose answers do
    not depend on when a request or a write is made, the deck and the
    reference list of a run do not depend on the state it starts from
    (the files, the output and the deck an earlier run left). *)
Theorem rerun_gives_the_same_deck (items : list syndrome) (env : Env) (st st2 : State) :
  stationary env ->
  prs (snd (main_on items env st)) = prs (snd (main_on items env st2)) /\
  refs (snd (main_on items env st)) = refs (snd (main_on items env st2)) /\
  fst (main_on items env st) = fst (main_on items env st2).
Proof.
  intros Hst.
  destruct (main_on_run items env st) as (sa & Ha & Hmain).
  destruct (main_on_run items env st2) as (sb & Hb & Hmain2).
  cbn zeta in Hmain, Hmain2.
  rewrite (run_steps_stationary env items (loop_start st) (loop_start st2) Hst) in Hmain.
  rewrite Ha, Hb.
  destruct (steps_result env (run_steps items env (loop_start st2))).
  - destruct Hmain as (-> & -> & -> & _), Hmain2 as (-> & -> & -> & _). done.
  - destruct Hmain as (-> & -> & -> & _), Hmain2 as (-> & -> & -> & _). done.
Qed.

Lemma rerun_gives_the_same_deck_witness :
  stationary world_online /\
  prs (snd (main world_online empty_state)) = prs (snd (main world_online used_state)).
Proof.
  assert (stationary world_online) as Hst by (split; reflexivity).
  split; [exact Hst|].
  exact (proj1 (rerun_gives_the_same_deck syndromes world_online empty_state used_state Hst)).
Defined.

Lemma loop_refs_locators env items steps :
  Forall (fun step => In (fst step) items /\ exists st0, snd step = obtained (fst step) env st0)
         steps ->
  Forall (fun ref => exists item s,
            In item items /\ PyStr.truthy s = true /\ ref = ref_entry item s)
         (loop_refs env steps).
Proof.
  induction 1 as [|[item got] steps [Hin [st0 Hgot]] _ IH]; [constructor|].
  unfold loop_refs in *. cbn [flat_map]. apply Forall_app. split; [|exact IH].
  unfold step_refs. cbn [fst snd] in *.
  destruct got as [[locator bytes]|]; [|constructor].
  destruct (obtained_downloaded item env st0 locator bytes (eq_sym Hgot))
    as (_ & s & -> & Hs & _).
  constructor; [|constructor]. by exists item, s.
Qed.

(** X15. Every reference entry names a record of the run and carries a
    non-empty string as locator: no entry is ever written with a missing
    or empty locator, or with the text of a value that is not a string. *)
Theorem reference_locators_are_strings (items : list syndrome) (env : Env) (st : State) :
  Forall (fun ref =>
            In ref GENERAL_REFERENCES \/
            exists item s,
              In item items /\ PyStr.truthy s = true /\
              ref = "Image: " +:+ name item +:+ " — " +:+ s)
         (refs (snd (main_on items env st))).
Proof.
  assert (Forall (fun ref =>
            In ref GENERAL_REFERENCES \/
            exists item s,
              In item items /\ PyStr.truthy s = true /\
              ref = "Image: " +:+ name item +:+ " — " +:+ s)
            (loop_refs env (run_steps items env (loop_start st)))) as Hloop.
  { eapply Forall_impl; [apply (loop_refs_locators env items), run_steps_obtained|].
    intros ref (item & s & Hin & Hs & ->). right. by exists item, s. }
  destruct (main_on_refs items env st) as [-> | ->]; [exact Hloop|].
  apply Forall_app. split; [exact Hloop|].
  apply List.Forall_forall. intros ref Hin. by left.
Qed.

(** X16. A file the library cannot read as an image stops the run. When
    the image obtained for a record is such a file, the reference entry of
    the record is added, [add_picture] raises, the slide is left with its
    text region only, and the loop ends there: the records after it are
    not reached. *)
Theorem unreadable_picture_stops_the_loop (item : syndrome) (rest : list syndrome)
    (env : Env) (st : State) (locator : value) (bytes : string) (e : exn) :
  obtained item env st = Some (locator, bytes) ->
  image_error env bytes = Some e ->
  fst (loop_body item env st) = Raise e /\
  prs (snd (loop_body item env st)) = prs st ++ [ syndrome_slide item None ] /\
  refs (snd (loop_body item env st)) = refs st ++ [ ref_entry item (locator_text env locator) ] /\
  for_each loop_body (item :: rest) env st = (Raise e, snd (loop_body item env st)).
Proof.
  intros Hgot Herr.
  destruct (loop_body_run item env st)
    as (? & st2 & _ & _ & Hbody & Hprs & Hrefs & _).
  cbn zeta in Hbody. rewrite Hgot in Hbody, Hprs, Hrefs.
  unfold step_result, step_slide, step_refs, slide_outcome, picture_of in *.
  cbn [fst snd] in *. rewrite Herr in Hbody, Hprs. cbn [fst snd] in *.
  cbn [for_each]. unfold bind. rewrite Hbody. cbn [fst snd]. done.
Qed.

Lemma unreadable_picture_stops_the_loop_witness :
  obtained apert world_html empty_state
    = Some (VStr "https://en.wikipedia.org/wiki/Apert_syndrome",
            "<html><body>Sign in to continue</body></html>") /\
  fst (main world_html empty_state)
    = Raise (UnidentifiedImageError "cannot identify image file").
Proof.
  split; [reflexivity|].
  destruct (unreadable_picture_stops_the_loop apert (tl syndromes) world_html
              (loop_start empty_state)
              (VStr "https://en.wikipedia.org/wiki/Apert_syndrome")
              "<html><body>Sign in to continue</body></html>"
              (UnidentifiedImageError "cannot identify image file") eq_refl eq_refl)
    as (_ & _ & _ & Hloop).
  unfold main, main_on, bind. cbn [add_title_slide append_slide modify fst snd].
  change (for_each loop_body syndromes world_html _)
    with (for_each loop_body (apert :: tl syndromes) world_html (loop_start empty_state)).
  rewrite Hloop. reflexivity.
Defined.

(** X17. The caption of a picture. With a file the library reads, the
    caption box holds one paragraph per line of the caption, the first at
    10 points; a record without caption key gets one empty paragraph; a
    caption that is [None] makes the assignment raise, after the picture
    was added and the box was emptied. *)
Theorem caption_of_the_picture (item : syndrome) (path bytes : string)
    (env : Env) (st : State) :
  PyStr.truthy path = true ->
  disk st !! path = Some bytes ->
  image_error env bytes = None ->
  let run := add_syndrome_slide item (Some path) env st in
  let box := Textbox (Inches 6.2) (Plus (Inches 1.2) (Inches 3.05)) (Inches 3.0) (Inches 1.0) false in
  exists s,
    prs (snd run) = prs st ++ [ s ] /\
    match image_caption item with
    | Some (Some caption) =>
        fst run = Ok tt /\
        shapes s =
          [ text_region item; Picture path (Inches 6.2) (Inches 1.2) (Inches 3.0);
            box (set_first_font_size (Pt 10)
                   (List.map (fun line => {| text := line; level := 0; font_size := None |})
                             (PyStr.split "010" caption))) ]
    | Some None =>
        fst run = Raise (none_text_error env) /\
        shapes s =
          [ text_region item; Picture path (Inches 6.2) (Inches 1.2) (Inches 3.0); box [] ]
    | None =>
        fst run = Ok tt /\
        shapes s =
          [ text_region item; Picture path (Inches 6.2) (Inches 1.2) (Inches 3.0);
            box [ {| text := ""; level := 0; font_size := Some (Pt 10) |} ] ]
    end.
Proof.
  intros Hpath Hdisk Herr run box. unfold run. rewrite add_syndrome_slide_run.
  unfold shown, slide_outcome. rewrite Hpath, Hdisk, Herr. cbn [fst snd prs set_prs].
  eexists. split; [reflexivity|].
  unfold syndrome_slide, broken_caption_slide, caption_region, emptied_caption_region,
    caption_text, image_region, text_paragraphs.
  destruct (image_caption item) as [[caption|]|]; done.
Qed.

Lemma caption_of_the_picture_witness :
  fst (add_syndrome_slide apert_no_caption (Some "/workspace/presentation/images/apert_syndrome.jpg")
         world_online
         (create_file "/workspace/presentation/images/apert_syndrome.jpg" GIF empty_state))
    = Raise TypeError.
Proof.
  destruct (caption_of_the_picture apert_no_caption
              "/workspace/presentation/images/apert_syndrome.jpg" GIF world_online
              (create_file "/workspace/presentation/images/apert_syndrome.jpg" GIF empty_state)
              eq_refl eq_refl eq_refl) as (s & _ & H & _).
  exact H.
Defined.

(** X18. A run that raises saves nothing: whether a slide or the save
    itself raised, no deck is recorded as saved and the line [Saved: ...]
    is not printed; a run that returns has saved the deck it built, of two
    slides more than there are records. *)
Theorem raising_run_saves_nothing (items : list syndrome) (env : Env) (st : State) :
  let run := main_on items env st in
  match fst run with
  | Ok _ =>
      saved (snd run) = Some (prs (snd run)) /\
      length (prs (snd run)) = (2 + length items)%nat /\
      exists printed, stdout (snd run) = stdout st ++ printed ++ [ Saved OUTPUT_PPTX ]
  | Raise _ =>
      saved (snd run) = saved st /\
      (length (prs (snd run)) <= 2 + length items)%nat /\
      exists printed,
        stdout (snd run) = stdout st ++ printed /\
        Forall (fun l => failure_line l = true) printed
  end.
Proof.
  intros run.
  destruct (main_on_world items env st)
    as (st1 & [(more & lines & _ & _ & Ho & Hf & _) _] & _ & Hstdout & _).
  cbn zeta in Hstdout. fold run in Hstdout.
  pose proof (run_steps_length items env (loop_start st)) as Hlen.
  destruct (main_on_run items env st) as (st' & Hrun & Hmain).
  cbn zeta in Hmain. fold run in Hrun, Hmain.
  destruct (run_steps_reached items env (loop_start st)) as [_ Hitems].
  set (steps := run_steps items env (loop_start st)) in *.
  assert (length (full_deck env steps) = (2 + length steps)%nat) as Hfull.
  { unfold full_deck, loop_deck. rewrite length_app. cbn [length]. rewrite length_map. lia. }
  destruct (steps_result env steps) as [[]|e].
  - destruct Hmain as (Hfst & Hprs & _ & Hsaved). rewrite Hrun, Hprs, Hfull, Hsaved, Hfst in *.
    specialize (Hitems eq_refl). apply (f_equal length) in Hitems.
    rewrite length_map in Hitems.
    destruct (save env (full_deck env steps) OUTPUT_PPTX).
    + split; [done|]. split; [lia|]. exists lines. by rewrite Hstdout, Ho, <- app_assoc.
    + split; [done|]. split; [lia|]. exists lines. by rewrite Hstdout, Ho, app_nil_r.
  - destruct Hmain as (Hfst & Hprs & _ & Hsaved). rewrite Hrun, Hprs, Hsaved, Hfst in *.
    split; [done|]. split.
    + unfold loop_deck. cbn [length]. rewrite length_map. lia.
    + exists lines. by rewrite Hstdout, Ho, app_nil_r.
Qed.
